(** * denova.os.command: running commands through the subprocess module

    A shallow embedding of [denova/os/command.py] and the properties of
    its argument normalisation ([get_run_args]), its output formatting
    ([format_output]), the synchronous executor ([run]), the background
    executor ([background]) and [wait_child].

    Conventions of the embedding.
    - A Python [str] is a list of Unicode code points ([N]); a Python
      [bytes] is a list of [byte].
    - [bytes.decode()] is UTF-8 with strict error handling, and
      [str.strip()] removes the characters for which [str.isspace] holds.
    - What the module obtains from outside (the filesystem through
      [glob.glob] and [open], process creation through [subprocess.run]
      and [subprocess.Popen], [os.waitpid], [shlex.split]) is a field of
      the record [Platform].
    - The functions of the module thread a trace of the calls they make
      (log lines and calls to the platform, in program order) and either
      return a value or raise an exception: the monad [M].
    - The logger is the one [_init_log] installs at the entry of [run]
      and [background]; a log call appends a line to the trace. *)

From Stdlib Require Import List ZArith NArith Bool String Ascii Lia.
From Stdlib.Strings Require Import Byte.
Import ListNotations.

Local Open Scope list_scope.
Local Open Scope bool_scope.

(** ** Python strings *)

Module PyStr.

Definition str := list N.

(** A source literal, written with an ASCII string. *)
Definition lit (s : string) : str :=
  map N_of_ascii (list_ascii_of_string s).

Fixpoint eqb (a b : str) : bool :=
  match a, b with
  | [], [] => true
  | x :: a', y :: b' => N.eqb x y && eqb a' b'
  | _, _ => false
  end.

(** [s.startswith(prefix)] *)
Fixpoint startswith (s prefix : str) : bool :=
  match prefix, s with
  | [], _ => true
  | p :: prefix', c :: s' => N.eqb c p && startswith s' prefix'
  | _ :: _, [] => false
  end.

(** [s.endswith(suffix)] *)
Definition endswith (s suffix : str) : bool :=
  startswith (rev s) (rev suffix).

(** [needle in s], for any needle *)
Fixpoint contains (s needle : str) : bool :=
  startswith s needle ||
  match s with
  | [] => false
  | _ :: s' => contains s' needle
  end.

(** [str.isspace] on one code point: the ASCII white space and
    separators, and the Unicode code points of bidirectional class WS, B
    or S or of category Zs. *)
Definition isspace (c : N) : bool :=
  (((9 <=? c) && (c <=? 13)) || ((28 <=? c) && (c <=? 32)) ||
   (c =? 133) || (c =? 160) || (c =? 5760) ||
   ((8192 <=? c) && (c <=? 8202)) ||
   (c =? 8232) || (c =? 8233) || (c =? 8239) || (c =? 8287) ||
   (c =? 12288))%N.

Fixpoint lstrip (s : str) : str :=
  match s with
  | [] => []
  | c :: s' => if isspace c then lstrip s' else s
  end.

Definition rstrip (s : str) : str := rev (lstrip (rev s)).

(** [s.strip()] *)
Definition strip (s : str) : str := rstrip (lstrip s).

(** Truth value of a string: non-empty. *)
Definition nonempty (s : str) : bool :=
  match s with [] => false | _ :: _ => true end.

End PyStr.

Import PyStr.

(** ** Python bytes and the UTF-8 decoder *)

Module PyBytes.

Definition bytes := list byte.

Definition cont (b : byte) : bool :=
  let n := Byte.to_N b in (128 <=? n)%N && (n <=? 191)%N.

Definition between (lo hi : N) (b : byte) : bool :=
  let n := Byte.to_N b in (lo <=? n)%N && (n <=? hi)%N.

Definition low6 (b : byte) : N := N.land (Byte.to_N b) 63.

(** [b.decode()]: UTF-8, errors='strict'.  [None] stands for the
    [UnicodeDecodeError] raised on an ill-formed sequence (a stray
    continuation byte, an overlong form, a surrogate, a value above
    U+10FFFF or a truncated sequence). *)
Fixpoint decode (bs : bytes) : option str :=
  match bs with
  | [] => Some []
  | b0 :: r0 =>
    let n0 := Byte.to_N b0 in
    if (n0 <? 128)%N then option_map (cons n0) (decode r0)
    else if between 194 223 b0 then
      match r0 with
      | b1 :: r1 =>
        if cont b1
        then option_map (cons (N.land n0 31 * 64 + low6 b1)%N) (decode r1)
        else None
      | _ => None
      end
    else if between 224 239 b0 then
      match r0 with
      | b1 :: b2 :: r2 =>
        if (if (n0 =? 224)%N then between 160 191 b1
            else if (n0 =? 237)%N then between 128 159 b1
            else cont b1) && cont b2
        then option_map
               (cons (N.land n0 15 * 4096 + low6 b1 * 64 + low6 b2)%N)
               (decode r2)
        else None
      | _ => None
      end
    else if between 240 244 b0 then
      match r0 with
      | b1 :: b2 :: b3 :: r3 =>
        if (if (n0 =? 240)%N then between 144 191 b1
            else if (n0 =? 244)%N then between 128 143 b1
            else cont b1) && cont b2 && cont b3
        then option_map
               (cons (N.land n0 7 * 262144 + low6 b1 * 4096
                      + low6 b2 * 64 + low6 b3)%N)
               (decode r3)
        else None
      | _ => None
      end
    else None
  end.

End PyBytes.

Import PyBytes.

(** ** Objects, keyword arguments, results and exceptions *)

(** The captured output of a process: [bytes], or [str] when the caller
    asked the subprocess module for text. *)
Inductive stream :=
| Bytes (b : bytes)
| Text (s : str).

(** [subprocess.CompletedProcess] and [subprocess.CalledProcessError]
    carry the same attributes; [format_output] is applied to both.
    [stderrout] is the attribute the module adds ([None] before it is
    assigned). *)
Record proc_result := mk_result {
  args : list str;
  returncode : Z;
  stdout : option stream;
  stderr : option stream;
  stderrout : option str
}.

Definition set_stdout (r : proc_result) (v : option stream) :=
  mk_result (args r) (returncode r) v (stderr r) (stderrout r).
Definition set_stderr (r : proc_result) (v : option stream) :=
  mk_result (args r) (returncode r) (stdout r) v (stderrout r).
Definition set_stderrout (r : proc_result) (v : option str) :=
  mk_result (args r) (returncode r) (stdout r) (stderr r) v.

(** A [subprocess.Popen] object. *)
Record popen := mk_popen {
  pid : Z;
  popen_args : list str
}.

(** The values a keyword argument or a positional object can hold. *)
Inductive pyobj :=
| PyNone
| PyBool (b : bool)
| PyInt (z : Z)
| PyStr (s : str)
| PyFile (name : string)
| PyPopen (p : popen).

Definition truthy (o : pyobj) : bool :=
  match o with
  | PyNone => false
  | PyBool b => b
  | PyInt z => negb (Z.eqb z 0)
  | PyStr s => nonempty s
  | PyFile _ => true
  | PyPopen _ => true
  end.

(** [subprocess.PIPE] *)
Definition PIPE : pyobj := PyInt (-1).

(** [**kwargs]: a dict with string keys, in insertion order. *)
Module Dict.

Definition dict := list (string * pyobj).

Fixpoint contains (k : string) (d : dict) : bool :=
  match d with
  | [] => false
  | (k', _) :: d' => String.eqb k k' || contains k d'
  end.

Fixpoint get (k : string) (d : dict) : option pyobj :=
  match d with
  | [] => None
  | (k', v) :: d' => if String.eqb k k' then Some v else get k d'
  end.

Fixpoint del (k : string) (d : dict) : dict :=
  match d with
  | [] => []
  | (k', v) :: d' => if String.eqb k k' then d' else (k', v) :: del k d'
  end.

(** [d[k] = v]: an existing key keeps its position. *)
Fixpoint set (k : string) (v : pyobj) (d : dict) : dict :=
  match d with
  | [] => [(k, v)]
  | (k', v') :: d' =>
    if String.eqb k k' then (k', v) :: d' else (k', v') :: set k v d'
  end.

(** [d.update(other)] *)
Definition update (d other : dict) : dict :=
  fold_left (fun acc kv => set (fst kv) (snd kv) acc) other d.

Definition nonempty (d : dict) : bool :=
  match d with [] => false | _ :: _ => true end.

End Dict.

Definition dict := Dict.dict.

Inductive exn :=
| ValueError (msg : string)
| NameError (name : string)
| TypeError (msg : string)
| UnicodeDecodeError
| OSError (strerror : option str)
| CalledProcessError (cpe : proc_result)
| TimeoutExpired
| OtherException (name : string).

Inductive outcome (A : Type) :=
| Ok (a : A)
| Raise (e : exn).
Arguments Ok {A} a.
Arguments Raise {A} e.

Definition obind {A B} (c : outcome A) (k : A -> outcome B) : outcome B :=
  match c with
  | Ok a => k a
  | Raise e => Raise e
  end.

Notation "'let?' x := c 'in' k" := (obind c (fun x => k))
  (at level 10, x name, c at level 100, k at level 200).

(** ** The platform and the trace *)

(** What [subprocess.run] observes of the process it ran (its exit
    status and what it captured of each stream: nothing when the stream
    was not a pipe), or the exception it raises other than for the exit
    status: a missing executable, a timeout, a keyword argument it does
    not accept or is given twice. *)
Inductive run_report :=
| Exited (code : Z) (out err : option stream)
| RunFault (e : exn).

Inductive level := Info | Warning | Debug.

Inductive payload :=
| NoPayload
| PArgs (a : list str)
| PKwargs (k : dict)
| PObj (o : pyobj)
| PStr (s : option str)
| PResult (r : proc_result)
| PExn (e : exn)
| PProcess (p : popen).

Inductive event :=
| EvLog (lv : level) (msg : string) (p : payload)
| EvGlob (pattern : str)
| EvShlexSplit (s : str)
| EvRun (a : list str) (k : dict)
| EvPopen (a : list str) (k : dict)
| EvOpenRead (file : str) (n : nat)
| EvWaitpid (pid : Z) (options : Z).

Definition trace := list event.

Record Platform := mk_platform {
  (** [glob.glob(pattern)]: the paths that match, possibly none *)
  fs_glob : str -> list str;
  (** [shlex.split(s)] *)
  shlex_split : str -> outcome (list str);
  (** the process behind [subprocess.run(args, **kwargs)] *)
  os_run : list str -> dict -> run_report;
  (** [subprocess.Popen(args, **kwargs)] *)
  os_popen : list str -> dict -> outcome popen;
  (** [open(file).read(n)] *)
  fs_read : str -> nat -> outcome str;
  (** [os.waitpid(pid, options)] *)
  os_waitpid : Z -> Z -> outcome unit
}.

(** ** The monad of the module's functions *)

Definition M (A : Type) : Type := trace -> outcome A * trace.

Definition ret {A} (a : A) : M A := fun t => (Ok a, t).

Definition bind {A B} (c : M A) (k : A -> M B) : M B :=
  fun t =>
    match c t with
    | (Ok a, t') => k a t'
    | (Raise e, t') => (Raise e, t')
    end.

Definition raise {A} (e : exn) : M A := fun t => (Raise e, t).

Definition emit (ev : event) : M unit := fun t => (Ok tt, t ++ [ev]).

Definition lift {A} (o : outcome A) : M A := fun t => (o, t).

(** [try: body / except ... as e: handler e / else: orelse].  An
    exception raised by the handler or by the else suite is not handled
    by this statement. *)
Definition try_except {A B} (body : M A) (handler : exn -> M B)
    (orelse : A -> M B) : M B :=
  fun t =>
    match body t with
    | (Ok a, t') => orelse a t'
    | (Raise e, t') => handler e t'
    end.

Declare Scope py_scope.
Delimit Scope py_scope with py.
Notation "x <- c ;; k" := (bind c (fun x => k))
  (at level 61, c at next level, right associativity) : py_scope.
Notation "' pat <- c ;; k" := (bind c (fun x => match x with pat => k end))
  (at level 61, pat pattern, c at next level, right associativity) : py_scope.
Notation "c ;; k" := (bind c (fun _ => k))
  (at level 61, right associativity) : py_scope.
Local Open Scope py_scope.

(** [log(...)], [log.warning(...)], [log.debug(...)] *)
Definition log (lv : level) (msg : string) (p : payload) : M unit :=
  emit (EvLog lv msg p).

(** [when c: body] *)
Definition when (c : bool) (body : M unit) : M unit :=
  if c then body else ret tt.

(** ** The module *)

Definition dquote : str := [34%N].
Definition squote : str := lit "'".
Definition star : str := lit "*".
Definition qmark : str := lit "?".
Definition space : str := lit " ".

(** [sys.stdin], [sys.stdout], [sys.stderr] *)
Definition sys_stdin : pyobj := PyFile "<stdin>".
Definition sys_stdout : pyobj := PyFile "<stdout>".
Definition sys_stderr : pyobj := PyFile "<stderr>".

(** The names bound at module level: the imports, [log] and the
    functions the module defines. *)
Definition module_names : list string :=
  ["glob"; "os"; "Queue"; "shlex"; "subprocess"; "sys"; "Thread"; "sleep";
   "log"; "run"; "run_verbose"; "background"; "get_run_args";
   "format_output"; "handle_run_error"; "update_stderrout"; "nice";
   "nice_args"; "wait_child"; "_init_log"; "show_stderr"]%string.

(** The names [background] binds: its parameters and every name it
    assigns. *)
Definition background_locals : list string :=
  ["command_args"; "kwargs"; "kwargs_str"; "key"; "process"; "ose";
   "program_file"; "program"; "first_chars"; "e"]%string.

(** Reading a name that is bound neither in the function nor in the
    module (and is not a builtin) raises [NameError]. *)
Definition load_name (scope : list string) (name : string) : M unit :=
  if existsb (String.eqb name) scope then ret tt
  else raise (NameError name).

(** The source's [if not isinstance(x, str): x = x.decode()]. *)
Definition to_text (s : stream) : outcome str :=
  match s with
  | Text t => Ok t
  | Bytes b =>
    match decode b with
    | Some t => Ok t
    | None => Raise UnicodeDecodeError
    end
  end.

(** Truth value of [result.stderr]. *)
Definition stream_truthy (s : option stream) : bool :=
  match s with
  | None => false
  | Some (Text t) => nonempty t
  | Some (Bytes b) => match b with [] => false | _ :: _ => true end
  end.

(** [a + b] on captured streams; [str + str] is the only sum the
    module forms. *)
Definition stream_add (a b : option stream) : outcome str :=
  match a, b with
  | Some (Text x), Some (Text y) => Ok (x ++ y)
  | _, _ => Raise (TypeError "unsupported operand type(s) for +")
  end.

(** [format_output(result)].  The function assigns the attributes of the
    object it is given and returns that object. *)
Definition format_output (result : proc_result) : outcome proc_result :=
  let result := set_stderrout result None in
  let? result :=
    match stderr result with
    | Some s =>
      let? t := to_text s in
      let result := set_stderr result (Some (Text (strip t))) in
      Ok (set_stderrout result (Some (strip t)))
    | None => Ok result
    end in
  match stdout result with
  | Some s =>
    let? t := to_text s in
    let result := set_stdout result (Some (Text (strip t))) in
    if stream_truthy (stderr result) then
      let? both := stream_add (stderr result) (stdout result) in
      Ok (set_stderrout result (Some both))
    else
      Ok (set_stderrout result (Some (strip t)))
  | None => Ok result
  end.

(** [update_stderrout(result)]: the same statements as [format_output]. *)
Definition update_stderrout (result : proc_result) : outcome proc_result :=
  let result := set_stderrout result None in
  let? result :=
    match stderr result with
    | Some s =>
      let? t := to_text s in
      let result := set_stderr result (Some (Text (strip t))) in
      Ok (set_stderrout result (Some (strip t)))
    | None => Ok result
    end in
  match stdout result with
  | Some s =>
    let? t := to_text s in
    let result := set_stdout result (Some (Text (strip t))) in
    if stream_truthy (stderr result) then
      let? both := stream_add (stderr result) (stdout result) in
      Ok (set_stderrout result (Some both))
    else
      Ok (set_stderrout result (Some (strip t)))
  | None => Ok result
  end.

(** [nice_args( *args)] *)
Definition nice_args (args : list str) : list str :=
  [lit "nice"; lit "nice"; lit "ionice"; lit "--class"; lit "3"] ++ args.

(** [isinstance(process, subprocess.Popen)] *)
Definition isinstance_Popen (o : pyobj) : bool :=
  match o with PyPopen _ => true | _ => false end.

Section Command.

Variable P : Platform.

Definition _init_log : M unit := ret tt.

(** [glob(arg)] *)
Definition glob (pattern : str) : M (list str) :=
  emit (EvGlob pattern) ;; ret (fs_glob P pattern).

(** The test [encased_str] of [get_run_args]. *)
Definition encased_str (arg : str) : bool :=
  (startswith arg dquote && endswith arg dquote) ||
  (startswith arg squote && endswith arg squote).

(** The loop [for arg in command_args] of [get_run_args]; [args] is the
    list the loop appends to. *)
Fixpoint get_run_args_loop (globbing : pyobj) (command_args : list str)
    (args : list str) : M (list str) :=
  match command_args with
  | [] => ret args
  | arg :: rest =>
    args <-
      (if contains arg star || contains arg qmark then
         if truthy globbing && negb (encased_str arg) then
           matches <- glob arg ;;
           log Info "globbed: " (PArgs [arg]) ;;
           ret (args ++ matches)
         else ret (args ++ [arg])
       else ret (args ++ [arg])) ;;
    get_run_args_loop globbing rest args
  end.

(** The first statements of [get_run_args]: the keyword arguments after
    [interactive] and [glob] are taken out, and the value of
    [globbing]. *)
Definition get_run_kwargs (kwargs : dict) : pyobj * dict :=
  let kwargs :=
    if Dict.contains "interactive" kwargs then
      match Dict.get "interactive" kwargs with
      | Some v =>
        if truthy v then
          Dict.update (Dict.del "interactive" kwargs)
            [("stdin", sys_stdin); ("stdout", sys_stdout);
             ("stderr", sys_stderr)]%string
        else Dict.del "interactive" kwargs
      | None => kwargs
      end
    else kwargs in
  if Dict.contains "glob" kwargs then
    match Dict.get "glob" kwargs with
    | Some v => (v, Dict.del "glob" kwargs)
    | None => (PyBool true, kwargs)
    end
  else (PyBool true, kwargs).

(** [get_run_args( *command_args, **kwargs)] *)
Definition get_run_args (command_args : list str) (kwargs : dict)
    : M (list str * dict) :=
  let '(globbing, kwargs) := get_run_kwargs kwargs in
  args <- get_run_args_loop globbing command_args [] ;;
  ret (args, kwargs).

(** [subprocess.run(args, check=True, **kwargs)] *)
Definition subprocess_run (args : list str) (kwargs : dict)
    : M proc_result :=
  emit (EvRun args kwargs) ;;
  match os_run P args kwargs with
  | Exited code out err =>
    if Z.eqb code 0 then ret (mk_result args code out err None)
    else raise (CalledProcessError (mk_result args code out err None))
  | RunFault e => raise e
  end.

(** [handle_run_error(command_args, cpe)].  The source returns nothing;
    the value returned here is the object [cpe] after the assignments
    [update_stderrout] makes to it. *)
Definition handle_run_error (command_args : list str) (cpe : proc_result)
    : M proc_result :=
  log Info "command failed. returncode: " (PArgs command_args) ;;
  log Info "cpe: " (PResult cpe) ;;
  log Info "cpe stderr and stdout: " (PStr (stderrout cpe)) ;;
  log Info "" (PResult cpe) ;;
  lift (update_stderrout cpe).

(** The statements of [run] inside [try], up to the call of
    [subprocess.run]: the argument list and keyword arguments of that
    call, and [verbose]. *)
Definition run_setup (command_args : list str) (kwargs : dict)
    : M (list str * dict * pyobj) :=
  ' (args, kwargs) <- get_run_args command_args kwargs ;;
  ' (verbose, kwargs) <-
    (if Dict.nonempty kwargs then
       if Dict.contains "verbose" kwargs then
         match Dict.get "verbose" kwargs with
         | Some verbose =>
           when (truthy verbose)
             (log Info "args: " (PArgs args) ;;
              log Info "kwargs: " (PKwargs kwargs)) ;;
           ret (verbose, Dict.del "verbose" kwargs)
         | None => ret (PyBool false, kwargs)
         end
       else ret (PyBool false, kwargs)
     else ret (PyBool false, kwargs)) ;;
  ' (output_bytes, kwargs) <-
    (if Dict.contains "output_bytes" kwargs then
       match Dict.get "output_bytes" kwargs with
       | Some output_bytes =>
         let kwargs := Dict.del "output_bytes" kwargs in
         when (truthy verbose)
           (log Info "output bytes: " (PObj output_bytes)) ;;
         ret (output_bytes, kwargs)
       | None => ret (PyBool false, kwargs)
       end
     else ret (PyBool false, kwargs)) ;;
  let kwargs :=
    fold_left
      (fun kwargs output =>
         if negb (Dict.contains output kwargs)
         then Dict.set output PIPE kwargs else kwargs)
      ["stdout"; "stderr"]%string kwargs in
  ret (args, kwargs, verbose).

(** The two [except] clauses of [run].  The exception raised again by
    the bare [raise] of the first clause is the object [cpe], with the
    attributes [format_output] and [handle_run_error] assigned to it. *)
Definition run_except (command_args : list str) (e : exn) : M proc_result :=
  match e with
  | CalledProcessError cpe =>
    log Warning "command got CalledProcessError: " (PArgs command_args) ;;
    cpe <- lift (format_output cpe) ;;
    cpe <- handle_run_error command_args cpe ;;
    raise (CalledProcessError cpe)
  | _ =>
    log Warning "command got Exception: " (PArgs command_args) ;;
    log Warning "error NOT subprocess.CalledProcessError: " (PExn e) ;;
    log Info "" (PExn e) ;;
    raise e
  end.

(** The [else] clause of [run] and the statements after the [try]. *)
Definition run_else (command_args : list str) (verbose : pyobj)
    (result : proc_result) : M proc_result :=
  when (truthy verbose)
    (log Info "command succeeded: " (PArgs command_args)) ;;
  result <- lift (format_output result) ;;
  when (truthy verbose)
    (log Info "after run(), result: " (PResult result)) ;;
  ret result.

(** [run( *command_args, **kwargs)] *)
Definition run (command_args : list str) (kwargs : dict) : M proc_result :=
  _init_log ;;
  try_except
    (' (args, kwargs, verbose) <- run_setup command_args kwargs ;;
     result <- subprocess_run args kwargs ;;
     ret (verbose, result))
    (run_except command_args)
    (fun vr => run_else command_args (fst vr) (snd vr)).

(** [run_verbose( *args, **kwargs)] *)
Definition run_verbose (args : list str) (kwargs : dict) : M proc_result :=
  let kwargs :=
    if negb (Dict.contains "interactive" kwargs)
    then Dict.set "interactive" (PyBool true) kwargs else kwargs in
  run args kwargs.

(** [nice( *args, **kwargs)] *)
Definition nice (args : list str) (kwargs : dict) : M proc_result :=
  run (nice_args args) kwargs.

(** [subprocess.Popen(args, **kwargs)] *)
Definition Popen (args : list str) (kwargs : dict) : M popen :=
  emit (EvPopen args kwargs) ;; lift (os_popen P args kwargs).

(** [open(file).read(n)] *)
Definition open_read (file : str) (n : nat) : M str :=
  emit (EvOpenRead file n) ;; lift (fs_read P file n).

(** The statement of [background] that turns a single argument with a
    space into a command line. *)
Definition background_args (command_args : list str) : M (list str) :=
  match command_args with
  | [arg] =>
    if contains arg space then
      emit (EvShlexSplit arg) ;; lift (shlex_split P arg)
    else ret command_args
  | _ => ret command_args
  end.

(** The two [except] clauses of [background].  Both start with a log
    line whose text reads the name [command_str].  [kwargs_str] is kept
    as the keyword arguments it is built from.  The first clause ends
    without a [return]: its value is [None]. *)
Definition background_except (command_args : list str) (kwargs : dict)
    (e : exn) : M (option popen) :=
  let kwargs_str := PKwargs kwargs in
  let scope := background_locals ++ module_names in
  match e with
  | OSError strerror =>
    load_name scope "command_str" ;;
    log Debug "os error: command: " NoPayload ;;
    log Debug "os error: kwargs: " kwargs_str ;;
    log Debug "exception" (PExn e) ;;
    match strerror with
    | Some reason =>
      if nonempty reason then
        if contains reason (lit "Exec format error") then
          match command_args with
          | program_file :: _ =>
            first_chars <- open_read program_file 2 ;;
            if PyStr.eqb first_chars (lit "#!") then
              (if Dict.contains "shell" kwargs
               then raise (TypeError "multiple values for shell")
               else Popen command_args
                      (("shell"%string, PyBool true) :: kwargs)) ;;
              ret None
            else
              log Debug "no #! in " (PArgs [program_file]) ;;
              raise e
          | [] => raise (OtherException "IndexError")
          end
        else raise e
      else raise e
    | None => raise e
    end
  | _ =>
    load_name scope "command_str" ;;
    log Debug "command: " NoPayload ;;
    log Debug "kwargs: " kwargs_str ;;
    log Debug "" (PExn e) ;;
    raise e
  end.

(** The [else] clause of [background]. *)
Definition background_else (process : popen) : M (option popen) :=
  log Debug "background process started: " (PProcess process) ;;
  ret (Some process).

(** [background( *command_args, **kwargs)].  The value is the object the
    call returns: a [Popen], or [None] when the function ends without a
    [return]. *)
Definition background (command_args : list str) (kwargs : dict)
    : M (option popen) :=
  match command_args with
  | [] => raise (ValueError "missing command")
  | _ :: _ =>
    _init_log ;;
    command_args <- background_args command_args ;;
    try_except
      (Popen command_args kwargs)
      (background_except command_args kwargs)
      background_else
  end.

(** [wait_child(process)] *)
Definition wait_child (process : pyobj) : M unit :=
  if negb (isinstance_Popen process) then
    raise (ValueError "program must be an instance of subprocess.Popen")
  else
    match process with
    | PyPopen p =>
      emit (EvWaitpid (pid p) 0) ;; lift (os_waitpid P (pid p) 0)
    | _ => ret tt
    end.

End Command.

(** ** Derived notions used in the statements *)

(** What one argument contributes to the final list, and the calls it
    causes, read off the body of the loop of [get_run_args]. *)
Definition is_globbed (globbing : pyobj) (arg : str) : bool :=
  (contains arg star || contains arg qmark) &&
  (truthy globbing && negb (encased_str arg)).

Definition resolved_arg (P : Platform) (globbing : pyobj) (arg : str)
    : list str :=
  if is_globbed globbing arg then fs_glob P arg else [arg].

Definition resolved_events (globbing : pyobj) (arg : str) : list event :=
  if is_globbed globbing arg
  then [EvGlob arg; EvLog Info "globbed: " (PArgs [arg])]
  else [].

Definition resolved (P : Platform) (globbing : pyobj) (cmd : list str)
    : list str :=
  flat_map (resolved_arg P globbing) cmd.

(** The value of the option [glob]: on unless the caller passes a false
    value. *)
Definition glob_option (kwargs : dict) : pyobj :=
  match Dict.get "glob" kwargs with
  | Some v => v
  | None => PyBool true
  end.

(** A captured stream as text, when it is absent, text already, or bytes
    that decode. *)
Definition decoded (s : option stream) : option (option str) :=
  match s with
  | None => Some None
  | Some s =>
    match to_text s with
    | Ok t => Some (Some t)
    | Raise _ => None
    end
  end.

(** Trimmed stderr followed by trimmed stdout, either alone when the
    other is absent, nothing when both are. *)
Definition combined (err out : option str) : option str :=
  match err, out with
  | Some e, Some o => Some (strip e ++ strip o)
  | Some e, None => Some (strip e)
  | None, Some o => Some (strip o)
  | None, None => None
  end.

Definition trimmed (s : option str) : option stream :=
  option_map (fun t => Text (strip t)) s.

(** [any(c.isspace() for c in s)] *)
Definition has_whitespace (s : str) : bool := existsb isspace s.

(** A computation only ever adds to the trace it is given. *)
Definition extends {A} (c : M A) : Prop :=
  forall t, exists added, snd (c t) = t ++ added.

(** ** Statements that are put to the test below *)

(** Every command that ends with status 0 gives a result. *)
Definition exit0_always_returns : Prop :=
  forall P cmd kw t a k v t1 out err,
    run_setup P cmd kw t = (Ok (a, k, v), t1) ->
    os_run P a k = Exited 0 out err ->
    exists r t', run P cmd kw t = (Ok r, t').

(** Every command that ends with another status makes [run] raise
    [CalledProcessError] with that status. *)
Definition nonzero_always_raises_failure : Prop :=
  forall P cmd kw t a k v t1 code out err,
    run_setup P cmd kw t = (Ok (a, k, v), t1) ->
    os_run P a k = Exited code out err ->
    code <> 0%Z ->
    exists r t',
      run P cmd kw t = (Raise (CalledProcessError r), t') /\
      returncode r = code.

(** A single argument that holds white space reaches [Popen] as the
    words [shlex.split] makes of it. *)
Definition whitespace_argument_is_split : Prop :=
  forall P arg kw t toks,
    has_whitespace arg = true ->
    shlex_split P arg = Ok toks ->
    In (EvPopen toks kw) (snd (background P [arg] kw t)).

(** ** Platforms for the examples *)

(** Splitting at white space: what [shlex.split] does to a string
    without quotes, escapes or comments. *)
Fixpoint split_fields (s : str) (field : str) : list str :=
  match s with
  | [] => if nonempty field then [rev field] else []
  | c :: s' =>
    if isspace c
    then (if nonempty field then [rev field] else []) ++ split_fields s' []
    else split_fields s' (c :: field)
  end.

(** A directory holding [denova.log] and [denova.tmp] and nothing else. *)
Definition tmp_glob (pattern : str) : list str :=
  if PyStr.eqb pattern (lit "/tmp/denova*")
  then [lit "/tmp/denova.log"; lit "/tmp/denova.tmp"]
  else [].

(** A platform on which every command ends with [report], every
    [Popen] gives [spawned], and the file read starts with [head]. *)
Definition platform_of (report : run_report) (spawned : outcome popen)
    (head : str) : Platform :=
  mk_platform tmp_glob
    (fun s => Ok (split_fields s []))
    (fun _ _ => report)
    (fun _ _ => spawned)
    (fun _ n => Ok (firstn n head))
    (fun _ _ => Ok tt).

(** [echo a]: exit status 0, [b'a\n'] on stdout, nothing on stderr. *)
Definition echo_platform : Platform :=
  platform_of (Exited 0 (Some (Bytes [x61; x0a])) (Some (Bytes [])))
    (Ok (mk_popen 4242 [lit "sleep"; lit "1"])) (lit "#!/bin/sh").

(** [printf '\377']: exit status 0, the single byte 0xFF on stdout. *)
Definition binary_platform : Platform :=
  platform_of (Exited 0 (Some (Bytes [xff])) (Some (Bytes [])))
    (Ok (mk_popen 4242 [lit "sleep"; lit "1"])) (lit "#!/bin/sh").

(** A command that writes the byte 0xFF and ends with status 1. *)
Definition failing_binary_platform : Platform :=
  platform_of (Exited 1 (Some (Bytes [xff])) (Some (Bytes [])))
    (Ok (mk_popen 4242 [lit "sleep"; lit "1"])) (lit "#!/bin/sh").

(** [ls /nonexistent]: exit status 2, a message on stderr. *)
Definition ls_platform : Platform :=
  platform_of
    (Exited 2 (Some (Bytes []))
       (Some (Bytes [x6e; x6f; x20; x66; x69; x6c; x65; x0a])))
    (Ok (mk_popen 4242 [lit "sleep"; lit "1"])) (lit "#!/bin/sh").

(** A target the kernel refuses to execute ("Exec format error"), whose
    first two characters are [head]. *)
Definition noexec_platform (head : str) : Platform :=
  platform_of (RunFault (OSError (Some (lit "Exec format error"))))
    (Raise (OSError (Some (lit "Exec format error")))) head.

(** ** Notions used in the further properties *)

(** A dict holds every key once. *)
Fixpoint keys_distinct (d : dict) : bool :=
  match d with
  | [] => true
  | (k, _) :: d' => negb (Dict.contains k d') && keys_distinct d'
  end.

(** The test ['*' in arg or '?' in arg] of [get_run_args]. *)
Definition has_wildcard (arg : str) : bool :=
  contains arg star || contains arg qmark.

(** Whether the caller gave [interactive] a true value. *)
Definition interactive_option (kwargs : dict) : bool :=
  match Dict.get "interactive" kwargs with
  | Some v => truthy v
  | None => false
  end.

Definition stream_key (key : string) : bool :=
  String.eqb key "stdin" || String.eqb key "stdout" || String.eqb key "stderr".

(** The keys [get_run_args] assigns or deletes: its two options and,
    when [interactive] holds a true value, the three streams. *)
Definition normalizer_touches (kwargs : dict) (key : string) : bool :=
  String.eqb key "interactive" || String.eqb key "glob" ||
  (interactive_option kwargs && stream_key key).


(** The loop [for output in ['stdout', 'stderr']] of [run]. *)
Definition pipe_defaults (kwargs : dict) : dict :=
  fold_left
    (fun kwargs output =>
       if negb (Dict.contains output kwargs)
       then Dict.set output PIPE kwargs else kwargs)
    ["stdout"; "stderr"]%string kwargs.

(** The keyword arguments [run] calls [subprocess.run] with, read off
    the statements of its [try] suite. *)
Definition subprocess_kwargs (kwargs : dict) : dict :=
  pipe_defaults
    (Dict.del "output_bytes"
       (Dict.del "verbose" (snd (get_run_kwargs kwargs)))).

(** What the caller gave for a stream, [subprocess.PIPE] otherwise. *)
Definition or_pipe (given : option pyobj) : pyobj :=
  match given with
  | Some v => v
  | None => PIPE
  end.

(** A string that neither starts nor ends with white space. *)
Definition edge_trimmed (s : str) : bool :=
  match s with [] => true | c :: _ => negb (isspace c) end &&
  match rev s with [] => true | c :: _ => negb (isspace c) end.

(** A stream that is absent, or text without white space at its ends. *)
Definition stream_trimmed (s : option stream) : bool :=
  match s with
  | None => true
  | Some (Text t) => edge_trimmed t
  | Some (Bytes _) => false
  end.

(** The calls that start a process, and how many a trace holds. *)
Definition is_spawn (ev : event) : bool :=
  match ev with
  | EvRun _ _ | EvPopen _ _ => true
  | _ => false
  end.

Definition spawns (t : trace) : nat := List.length (filter is_spawn t).

(** A computation that adds to the trace and starts no process. *)
Definition quiet {A} (c : M A) : Prop :=
  forall t, exists added, snd (c t) = t ++ added /\ spawns added = 0%nat.

(** The object [background] returned, as the argument of another call. *)
Definition handle_obj (h : option popen) : pyobj :=
  match h with
  | Some p => PyPopen p
  | None => PyNone
  end.

(** The five words [nice_args] puts in front. *)
Definition nice_params : list str :=
  [lit "nice"; lit "nice"; lit "ionice"; lit "--class"; lit "3"].

(** A command that is not installed: [FileNotFoundError], a subclass of
    [OSError], from [subprocess.run] and from [Popen]. *)
Definition missing_platform : Platform :=
  platform_of (RunFault (OSError (Some (lit "No such file or directory"))))
    (Raise (OSError (Some (lit "No such file or directory")))) [].

(** [ls] with status 0, [b' a.txt\n'] on stdout and nothing captured of
    stderr. *)
Definition listing_platform : Platform :=
  platform_of
    (Exited 0 (Some (Bytes [x20; x61; x2e; x74; x78; x74; x0a])) None)
    (Ok (mk_popen 4242 [lit "sleep"; lit "1"])) (lit "#!/bin/sh").

(** ** Sanity checks of the embedding *)

Example decode_ascii :
  decode [x68; x69; x0a] = Some (lit "hi" ++ [10%N]).
Proof. reflexivity. Qed.

Example decode_two_bytes : decode [xc3; xa9] = Some [233%N].
Proof. reflexivity. Qed.

Example decode_three_bytes : decode [xe2; x82; xac] = Some [8364%N].
Proof. reflexivity. Qed.

Example decode_four_bytes : decode [xf0; x9f; x98; x80] = Some [128512%N].
Proof. reflexivity. Qed.

Example decode_invalid : decode [xff] = None.
Proof. reflexivity. Qed.

Example decode_overlong : decode [xc0; x80] = None.
Proof. reflexivity. Qed.

Example decode_surrogate : decode [xed; xa0; x80] = None.
Proof. reflexivity. Qed.

Example strip_both_ends :
  strip (lit "  a b " ++ [10%N]) = lit "a b".
Proof. reflexivity. Qed.

Example split_fields_words :
  split_fields (lit "sleep  0.5") [] = [lit "sleep"; lit "0.5"].
Proof. reflexivity. Qed.

(** The doctest of [run]: [run('echo', '"denova*"')] keeps the quoted
    argument. *)
Example run_echo_quoted :
  exists k t,
    run echo_platform [lit "echo"; dquote ++ lit "denova*" ++ dquote] [] []
    = (Ok (mk_result [lit "echo"; dquote ++ lit "denova*" ++ dquote] 0
             (Some (Text (lit "a"))) (Some (Text [])) (Some (lit "a"))),
       EvRun [lit "echo"; dquote ++ lit "denova*" ++ dquote] k :: t).
Proof. eexists; eexists; vm_compute; reflexivity. Qed.

(** The doctests of [get_run_args]. *)
Example get_run_args_plain :
  fst (get_run_args echo_platform [lit "ls"; lit "-l"; lit "/tmp"] [] [])
  = Ok ([lit "ls"; lit "-l"; lit "/tmp"], []).
Proof. reflexivity. Qed.

Example get_run_args_glob_off :
  fst (get_run_args echo_platform [lit "ls"; lit "-l"; lit "/tmp/denova*"]
         [("glob"%string, PyBool false)] [])
  = Ok ([lit "ls"; lit "-l"; lit "/tmp/denova*"], []).
Proof. reflexivity. Qed.

Example get_run_args_glob_on :
  fst (get_run_args echo_platform [lit "ls"; lit "-l"; lit "/tmp/denova*"]
         [] [])
  = Ok ([lit "ls"; lit "-l"; lit "/tmp/denova.log"; lit "/tmp/denova.tmp"],
        []).
Proof. reflexivity. Qed.

Example nice_args_prefix :
  nice_args [lit "tar"] =
  [lit "nice"; lit "nice"; lit "ionice"; lit "--class"; lit "3"; lit "tar"].
Proof. reflexivity. Qed.

Example background_sleep :
  fst (background echo_platform [lit "sleep"; lit "1"] [] [])
  = Ok (Some (mk_popen 4242 [lit "sleep"; lit "1"])).
Proof. reflexivity. Qed.

(** ** Facts about [strip] *)

Section Strip.

Lemma lstrip_lstrip (s : str) : lstrip (lstrip s) = lstrip s.
Proof.
  induction s as [|c s IH]; simpl; [reflexivity|].
  destruct (isspace c) eqn:Hc; [exact IH|].
  simpl. now rewrite Hc.
Qed.

(** A string that does not start with white space keeps its first
    character when white space is added or removed at its end. *)
Lemma lstrip_snoc (s : str) (c : N) :
  isspace c = false -> lstrip (s ++ [c]) = lstrip s ++ [c].
Proof.
  intros Hc. induction s as [|d s IH]; simpl.
  - now rewrite Hc.
  - destruct (isspace d); [exact IH | reflexivity].
Qed.

Lemma rstrip_cons (c : N) (s : str) :
  isspace c = false -> rstrip (c :: s) = c :: rstrip s.
Proof.
  intros Hc. unfold rstrip. simpl.
  rewrite lstrip_snoc by exact Hc.
  rewrite rev_app_distr. reflexivity.
Qed.

Lemma rstrip_rstrip (s : str) : rstrip (rstrip s) = rstrip s.
Proof.
  unfold rstrip. rewrite rev_involutive, lstrip_lstrip. reflexivity.
Qed.

Lemma lstrip_rstrip_fixed (s : str) :
  lstrip s = s -> lstrip (rstrip s) = rstrip s.
Proof.
  destruct s as [|c s]; intros H.
  - reflexivity.
  - simpl in H. destruct (isspace c) eqn:Hc.
    + exfalso.
      assert (Hlen : forall u, (List.length (lstrip u) <= List.length u)%nat).
      { induction u as [|d u IHu]; simpl; [lia|].
        destruct (isspace d); simpl; lia. }
      specialize (Hlen s). rewrite H in Hlen. simpl in Hlen. lia.
    + rewrite rstrip_cons by exact Hc. simpl. now rewrite Hc.
Qed.

Lemma strip_strip (s : str) : strip (strip s) = strip s.
Proof.
  unfold strip.
  rewrite (lstrip_rstrip_fixed (lstrip s)) by apply lstrip_lstrip.
  apply rstrip_rstrip.
Qed.

End Strip.

(** ** Facts about keyword arguments *)

Section DictFacts.

Lemma dict_get_del_other (k k' : string) (d : dict) :
  String.eqb k k' = false -> Dict.get k (Dict.del k' d) = Dict.get k d.
Proof.
  intros Hne. induction d as [|[k0 v0] d IH]; simpl; [reflexivity|].
  destruct (String.eqb k' k0) eqn:E1.
  - apply String.eqb_eq in E1. subst k0. now rewrite Hne.
  - simpl. destruct (String.eqb k k0); [reflexivity | exact IH].
Qed.

Lemma dict_get_set_other (k k' : string) (v : pyobj) (d : dict) :
  String.eqb k k' = false -> Dict.get k (Dict.set k' v d) = Dict.get k d.
Proof.
  intros Hne. induction d as [|[k0 v0] d IH]; simpl.
  - now rewrite Hne.
  - destruct (String.eqb k' k0) eqn:E1; simpl.
    + apply String.eqb_eq in E1. subst k0. now rewrite Hne.
    + destruct (String.eqb k k0); [reflexivity | exact IH].
Qed.

Lemma dict_contains_get (k : string) (d : dict) :
  Dict.contains k d = match Dict.get k d with Some _ => true | None => false end.
Proof.
  induction d as [|[k0 v0] d IH]; simpl; [reflexivity|].
  destruct (String.eqb k k0); [reflexivity | exact IH].
Qed.

(** [get_run_args] reads [globbing] from the option [glob], whatever it
    does with [interactive] before. *)
Lemma get_run_kwargs_globbing (kwargs : dict) :
  fst (get_run_kwargs kwargs) = glob_option kwargs.
Proof.
  unfold get_run_kwargs, glob_option.
  match goal with
  | |- context [Dict.contains "glob" ?k] => set (kw1 := k)
  end.
  assert (Hget : Dict.get "glob" kw1 = Dict.get "glob" kwargs).
  { subst kw1. destruct (Dict.contains "interactive" kwargs); [|reflexivity].
    destruct (Dict.get "interactive" kwargs) as [v|]; [|reflexivity].
    destruct (truthy v).
    - unfold Dict.update. simpl.
      rewrite !dict_get_set_other by reflexivity.
      apply dict_get_del_other. reflexivity.
    - apply dict_get_del_other. reflexivity. }
  rewrite dict_contains_get, Hget.
  destruct (Dict.get "glob" kwargs); reflexivity.
Qed.

End DictFacts.

(** ** Facts about the trace *)

Section Trace.


Lemma extends_ret {A} (a : A) : extends (ret a).
Proof. intros t. exists []. simpl. now rewrite app_nil_r. Qed.

Lemma extends_raise {A} (e : exn) : extends (@raise A e).
Proof. intros t. exists []. simpl. now rewrite app_nil_r. Qed.

Lemma extends_lift {A} (o : outcome A) : extends (lift o).
Proof. intros t. exists []. simpl. now rewrite app_nil_r. Qed.

Lemma extends_emit (ev : event) : extends (emit ev).
Proof. intros t. exists [ev]. reflexivity. Qed.

Lemma extends_log lv msg p : extends (log lv msg p).
Proof. apply extends_emit. Qed.

Lemma extends_bind {A B} (c : M A) (k : A -> M B) :
  extends c -> (forall a, extends (k a)) -> extends (bind c k).
Proof.
  intros Hc Hk t. unfold bind.
  destruct (Hc t) as [a1 H1]. destruct (c t) as [[a|e] t'] eqn:E.
  - simpl in H1. subst t'. destruct (Hk a (t ++ a1)) as [a2 H2].
    exists (a1 ++ a2). now rewrite H2, app_assoc.
  - simpl in H1. subst t'. exists a1. reflexivity.
Qed.

Lemma extends_try {A B} (body : M A) (handler : exn -> M B)
    (orelse : A -> M B) :
  extends body -> (forall e, extends (handler e)) ->
  (forall a, extends (orelse a)) -> extends (try_except body handler orelse).
Proof.
  intros Hb Hh Ho t. unfold try_except.
  destruct (Hb t) as [a1 H1]. destruct (body t) as [[a|e] t'] eqn:E;
    simpl in H1; subst t'.
  - destruct (Ho a (t ++ a1)) as [a2 H2].
    exists (a1 ++ a2). now rewrite H2, app_assoc.
  - destruct (Hh e (t ++ a1)) as [a2 H2].
    exists (a1 ++ a2). now rewrite H2, app_assoc.
Qed.

Lemma extends_when (c : bool) (body : M unit) :
  extends body -> extends (when c body).
Proof. intros H. destruct c; [exact H | apply extends_ret]. Qed.

End Trace.

Create HintDb trace discriminated.
#[export] Hint Resolve extends_ret extends_raise extends_lift extends_emit
  extends_log extends_when : trace.

Ltac extends_step :=
  first
    [ apply extends_bind; [| intros ? ]
    | apply extends_try; [| intros ? | intros ? ]
    | apply extends_when
    | apply extends_ret | apply extends_raise | apply extends_lift
    | apply extends_emit | apply extends_log ].

Ltac extends_auto :=
  repeat first
    [ extends_step
    | solve [auto with trace]
    | match goal with
      | |- extends (match ?x with _ => _ end) => destruct x
      end ].

(** ** Facts about [get_run_args] *)

Section Normalizer.

Variable P : Platform.

Lemma get_run_args_loop_spec (g : pyobj) (cmd : list str) :
  forall (acc : list str) (t : trace),
    get_run_args_loop P g cmd acc t
    = (Ok (acc ++ resolved P g cmd), t ++ flat_map (resolved_events g) cmd).
Proof.
  induction cmd as [|arg rest IH]; intros acc t.
  - simpl. unfold ret, resolved. simpl. now rewrite !app_nil_r.
  - cbn [get_run_args_loop].
    change (resolved P g (arg :: rest))
      with (resolved_arg P g arg ++ resolved P g rest).
    change (flat_map (resolved_events g) (arg :: rest))
      with (resolved_events g arg ++ flat_map (resolved_events g) rest).
    unfold resolved_arg, resolved_events, is_globbed, bind at 1.
    destruct (contains arg star || contains arg qmark); cbn [andb].
    + destruct (truthy g && negb (encased_str arg)).
      * cbv beta iota zeta delta [bind glob log emit ret]. rewrite IH.
        rewrite <- !app_assoc. reflexivity.
      * unfold ret. rewrite IH.
        rewrite <- !app_assoc. reflexivity.
    + unfold ret. rewrite IH.
      rewrite <- !app_assoc. reflexivity.
Qed.

Lemma get_run_args_spec (cmd : list str) (kwargs : dict) (t : trace) :
  get_run_args P cmd kwargs t
  = (Ok (resolved P (glob_option kwargs) cmd, snd (get_run_kwargs kwargs)),
     t ++ flat_map (resolved_events (glob_option kwargs)) cmd).
Proof.
  unfold get_run_args. rewrite <- get_run_kwargs_globbing.
  destruct (get_run_kwargs kwargs) as [g kw']. simpl.
  unfold bind. rewrite get_run_args_loop_spec. reflexivity.
Qed.

Lemma resolved_app (g : pyobj) (l1 l2 : list str) :
  resolved P g (l1 ++ l2) = resolved P g l1 ++ resolved P g l2.
Proof. unfold resolved. apply flat_map_app. Qed.

Lemma encased_not_globbed (g : pyobj) (arg : str) :
  encased_str arg = true -> is_globbed g arg = false.
Proof.
  intros H. unfold is_globbed. rewrite H. simpl.
  now rewrite andb_false_r, andb_false_r.
Qed.

Lemma glob_event_is_globbed (g : pyobj) (cmd : list str) (pattern : str) :
  In (EvGlob pattern) (flat_map (resolved_events g) cmd) ->
  is_globbed g pattern = true.
Proof.
  intros H. apply in_flat_map in H. destruct H as [a [_ Ha]].
  unfold resolved_events in Ha. destruct (is_globbed g a) eqn:E.
  - simpl in Ha. destruct Ha as [Ha|[Ha|[]]].
    + injection Ha as ->. exact E.
    + discriminate Ha.
  - destruct Ha.
Qed.

End Normalizer.

(** ** Facts about [format_output] *)

Section Formatter.

Lemma decoded_trimmed (s : option str) :
  decoded (trimmed s) = Some (option_map strip s).
Proof. destruct s; reflexivity. Qed.

Lemma combined_strip (err out : option str) :
  combined (option_map strip err) (option_map strip out) = combined err out.
Proof.
  destruct err, out; simpl; now rewrite ?strip_strip.
Qed.

Lemma trimmed_strip (s : option str) :
  trimmed (option_map strip s) = trimmed s.
Proof. destruct s; simpl; now rewrite ?strip_strip. Qed.

(** When both streams are absent, text, or bytes that decode, the
    function returns, and this is what it returns. *)
Lemma format_output_decoded (r : proc_result) (tout terr : option str) :
  decoded (stdout r) = Some tout ->
  decoded (stderr r) = Some terr ->
  format_output r
  = Ok (mk_result (args r) (returncode r) (trimmed tout) (trimmed terr)
          (combined terr tout)).
Proof.
  destruct r as [a rc so se sx]. unfold decoded. simpl.
  intros Hout Herr. unfold format_output. simpl.
  destruct se as [se|]; simpl.
  - destruct (to_text se) as [e|x]; [|discriminate Herr].
    injection Herr as <-. simpl.
    destruct so as [so|]; simpl.
    + destruct (to_text so) as [o|x]; [|discriminate Hout].
      injection Hout as <-. simpl.
      destruct (strip e) eqn:He; reflexivity.
    + injection Hout as <-. reflexivity.
  - injection Herr as <-.
    destruct so as [so|]; simpl.
    + destruct (to_text so) as [o|x]; [|discriminate Hout].
      injection Hout as <-. reflexivity.
    + injection Hout as <-. reflexivity.
Qed.

(** Otherwise it raises. *)
Lemma format_output_undecodable (r : proc_result) :
  decoded (stdout r) = None \/ decoded (stderr r) = None ->
  exists e, format_output r = Raise e.
Proof.
  destruct r as [a rc so se sx]. unfold decoded, format_output. simpl.
  intros [H|H].
  - destruct so as [so|]; [|discriminate H].
    destruct se as [se|]; simpl.
    + destruct (to_text se) as [e|x]; simpl; [|eauto].
      destruct (to_text so) as [o|x]; simpl; [discriminate H | eauto].
    + destruct (to_text so) as [o|x]; simpl; [discriminate H | eauto].
  - destruct se as [se|]; [|discriminate H]. simpl.
    destruct (to_text se) as [e|x]; simpl; [discriminate H | eauto].
Qed.

(** A result the function returned is left as it is by a second
    application. *)
Lemma format_output_fixed (r r1 : proc_result) :
  format_output r = Ok r1 -> format_output r1 = Ok r1.
Proof.
  intros H.
  destruct (decoded (stdout r)) as [tout|] eqn:Hout.
  - destruct (decoded (stderr r)) as [terr|] eqn:Herr.
    + rewrite (format_output_decoded r tout terr Hout Herr) in H.
      injection H as <-.
      rewrite (format_output_decoded _ (option_map strip tout)
                 (option_map strip terr));
        simpl; try apply decoded_trimmed.
      now rewrite !trimmed_strip, combined_strip.
    + destruct (format_output_undecodable r (or_intror Herr)) as [e He].
      rewrite He in H. discriminate H.
  - destruct (format_output_undecodable r (or_introl Hout)) as [e He].
    rewrite He in H. discriminate H.
Qed.

Lemma update_stderrout_format_output (r : proc_result) :
  update_stderrout r = format_output r.
Proof. reflexivity. Qed.

End Formatter.

(** ** Facts about [run] and [background] *)

Section Executors.

Variable P : Platform.

Lemma extends_get_run_args cmd kw : extends (get_run_args P cmd kw).
Proof.
  intros t. rewrite get_run_args_spec. eexists. reflexivity.
Qed.

(** [run] calls [subprocess.run] with the list [get_run_args] computed. *)
Lemma run_setup_args (cmd : list str) (kw : dict) (t : trace) :
  exists k v added,
    run_setup P cmd kw t
    = (Ok (resolved P (glob_option kw) cmd, k, v), t ++ added).
Proof.
  unfold run_setup, bind at 1. rewrite get_run_args_spec.
  set (a := resolved P (glob_option kw) cmd).
  set (k0 := snd (get_run_kwargs kw)).
  set (t0 := flat_map (resolved_events (glob_option kw)) cmd).
  assert (Hverbose : exists k1 v added1,
    (if Dict.nonempty k0 then
       if Dict.contains "verbose" k0 then
         match Dict.get "verbose" k0 with
         | Some verbose =>
           when (truthy verbose)
             (log Info "args: " (PArgs a) ;;
              log Info "kwargs: " (PKwargs k0)) ;;
           ret (verbose, Dict.del "verbose" k0)
         | None => ret (PyBool false, k0)
         end
       else ret (PyBool false, k0)
     else ret (PyBool false, k0)) (t ++ t0)
    = (Ok (v, k1), t ++ added1)).
  { destruct (Dict.nonempty k0);
      [destruct (Dict.contains "verbose" k0);
       [destruct (Dict.get "verbose" k0) as [v|]; [destruct (truthy v) eqn:Hv|]
       |]|].
    - do 3 eexists. unfold bind, when, log, emit, ret.
      rewrite <- !app_assoc. reflexivity.
    - do 3 eexists. unfold bind, when, log, emit, ret.
      reflexivity.
    - do 3 eexists. reflexivity.
    - do 3 eexists. reflexivity.
    - do 3 eexists. reflexivity. }
  destruct Hverbose as [k1 [v [added1 Hverbose]]].
  unfold bind at 1. cbv beta iota. rewrite Hverbose.
  destruct (Dict.contains "output_bytes" k1);
    [destruct (Dict.get "output_bytes" k1) as [ob|];
     [destruct (truthy v) eqn:Hv|]|].
  - do 3 eexists. unfold bind, when, log, emit, ret.
    rewrite <- !app_assoc. reflexivity.
  - do 3 eexists. unfold bind, when, log, emit, ret.
    reflexivity.
  - do 3 eexists. reflexivity.
  - do 3 eexists. reflexivity.
Qed.

Lemma extends_run_setup cmd kw : extends (run_setup P cmd kw).
Proof.
  intros t. destruct (run_setup_args cmd kw t) as [k [v [added H]]].
  rewrite H. eexists. reflexivity.
Qed.

Lemma extends_subprocess_run a k : extends (subprocess_run P a k).
Proof. unfold subprocess_run. extends_auto. Qed.

Lemma extends_run_except cmd e : extends (run_except cmd e).
Proof. unfold run_except, handle_run_error. extends_auto. Qed.

Lemma extends_run_else cmd v r : extends (run_else cmd v r).
Proof. unfold run_else. extends_auto. Qed.

Lemma extends_background_except cmd kw e :
  extends (background_except P cmd kw e).
Proof.
  unfold background_except, load_name, open_read, Popen. extends_auto.
Qed.

(** Whatever exception [Popen] raised, both [except] clauses of
    [background] raise [NameError] on their first statement: nothing is
    logged, the file is not read and [Popen] is not called again. *)
Lemma background_except_raises_NameError cmd kw e t :
  background_except P cmd kw e t = (Raise (NameError "command_str"), t).
Proof. destruct e; reflexivity. Qed.

Lemma extends_background_else p : extends (background_else p).
Proof. unfold background_else. extends_auto. Qed.

(** The trace of [run]: what came before, the calls of [get_run_args]
    and the verbose lines, the call of [subprocess.run] on the list
    [get_run_args] computed, and what follows. *)
Lemma run_trace (cmd : list str) (kw : dict) (t : trace) :
  exists k before after,
    snd (run P cmd kw t)
    = t ++ before ++ EvRun (resolved P (glob_option kw) cmd) k :: after.
Proof.
  destruct (run_setup_args cmd kw t) as [k [v [added Hsetup]]].
  exists k, added.
  unfold run, _init_log, bind at 1, ret at 1, try_except.
  unfold bind at 1. rewrite Hsetup.
  unfold bind at 1, subprocess_run, bind at 1, emit at 1.
  destruct (os_run P (resolved P (glob_option kw) cmd) k)
    as [code out err|e].
  - destruct (Z.eqb code 0).
    + unfold ret at 1, ret at 1. cbv beta iota. simpl fst. simpl snd.
      destruct (extends_run_else cmd v
                  (mk_result (resolved P (glob_option kw) cmd) code out err
                     None)
                  ((t ++ added)
                   ++ [EvRun (resolved P (glob_option kw) cmd) k]))
        as [after H].
      exists after. rewrite H. rewrite <- !app_assoc. reflexivity.
    + unfold raise at 1.
      destruct (extends_run_except cmd
                  (CalledProcessError
                     (mk_result (resolved P (glob_option kw) cmd) code out
                        err None))
                  ((t ++ added)
                   ++ [EvRun (resolved P (glob_option kw) cmd) k]))
        as [after H].
      exists after. rewrite H. rewrite <- !app_assoc. reflexivity.
  - unfold raise at 1.
    destruct (extends_run_except cmd e
                ((t ++ added)
                 ++ [EvRun (resolved P (glob_option kw) cmd) k]))
      as [after H].
    exists after. rewrite H. rewrite <- !app_assoc. reflexivity.
Qed.

(** A command that ends with status 0 and whose output decodes. *)
Lemma run_success cmd kw t a k v t1 out err tout terr :
  run_setup P cmd kw t = (Ok (a, k, v), t1) ->
  os_run P a k = Exited 0 out err ->
  decoded out = Some tout ->
  decoded err = Some terr ->
  exists t',
    run P cmd kw t
    = (Ok (mk_result a 0 (trimmed tout) (trimmed terr) (combined terr tout)),
       t').
Proof.
  intros Hsetup Hos Hout Herr.
  unfold run, run_else, run_except, _init_log, bind at 1, ret at 1, try_except.
  unfold bind at 1. rewrite Hsetup.
  unfold bind at 1, subprocess_run, bind at 1, emit at 1. rewrite Hos.
  simpl.
  rewrite (format_output_decoded (mk_result a 0 out err None) tout terr)
    by assumption.
  destruct (truthy v); simpl; eexists; reflexivity.
Qed.

(** A command that ends with another status and whose output decodes. *)
Lemma run_failure cmd kw t a k v t1 code out err tout terr :
  run_setup P cmd kw t = (Ok (a, k, v), t1) ->
  os_run P a k = Exited code out err ->
  code <> 0%Z ->
  decoded out = Some tout ->
  decoded err = Some terr ->
  exists t',
    run P cmd kw t
    = (Raise (CalledProcessError
                (mk_result a code (trimmed tout) (trimmed terr)
                   (combined terr tout))),
       t').
Proof.
  intros Hsetup Hos Hcode Hout Herr.
  apply Z.eqb_neq in Hcode.
  pose proof (format_output_decoded (mk_result a code out err None)
                tout terr Hout Herr) as Hfmt.
  pose proof (format_output_fixed _ _ Hfmt) as Hfix.
  simpl in Hfmt, Hfix.
  unfold run, run_else, run_except, _init_log, bind at 1, ret at 1, try_except.
  unfold bind at 1. rewrite Hsetup.
  unfold bind at 1, subprocess_run, bind at 1, emit at 1. rewrite Hos, Hcode.
  unfold raise at 1.
  unfold bind at 1, log at 1, emit at 1.
  unfold bind at 1, lift at 1. rewrite Hfmt.
  unfold bind at 1, handle_run_error.
  cbv beta iota zeta delta [bind log emit lift].
  rewrite update_stderrout_format_output, Hfix.
  eexists. reflexivity.
Qed.

(** A command that writes bytes that do not decode: no result and no
    [CalledProcessError] reaches the caller. *)
Lemma run_undecodable cmd kw t a k v t1 code out err :
  run_setup P cmd kw t = (Ok (a, k, v), t1) ->
  os_run P a k = Exited code out err ->
  decoded out = None \/ decoded err = None ->
  exists e t',
    run P cmd kw t = (Raise e, t') /\
    forall r, e <> CalledProcessError r.
Proof.
  intros Hsetup Hos Hdec.
  assert (Hraise : format_output (mk_result a code out err None)
                   = Raise UnicodeDecodeError).
  { destruct Hdec as [H|H]; unfold decoded in H;
      unfold format_output; simpl.
    - destruct out as [[b|s]|]; try discriminate H. simpl in H.
      destruct err as [[b'|s']|]; simpl;
        try destruct (decode b'); simpl;
        destruct (decode b); try discriminate H; reflexivity.
    - destruct err as [[b|s]|]; try discriminate H. simpl in H. simpl.
      destruct (decode b); try discriminate H; reflexivity. }
  unfold run, run_else, run_except, _init_log, bind at 1, ret at 1, try_except.
  unfold bind at 1. rewrite Hsetup.
  unfold bind at 1, subprocess_run, bind at 1, emit at 1. rewrite Hos.
  destruct (Z.eqb code 0).
  - simpl. rewrite Hraise.
    destruct (truthy v); simpl; do 2 eexists; (split; [reflexivity|]);
      intros r; discriminate.
  - unfold raise at 1.
    unfold bind at 1, log at 1, emit at 1.
    unfold bind at 1, lift at 1. rewrite Hraise.
    do 2 eexists. split; [reflexivity|]. intros r; discriminate.
Qed.

Lemma extends_Popen a k : extends (Popen P a k).
Proof. unfold Popen. repeat extends_step. Qed.

Lemma extends_load_name scope name : extends (load_name scope name).
Proof. unfold load_name. destruct (existsb _ scope); extends_step. Qed.

End Executors.

(** ** Facts about the ends of a stripped string *)

Section StripEdges.

Lemma lstrip_head (s : str) :
  match lstrip s with [] => true | c :: _ => negb (isspace c) end = true.
Proof.
  induction s as [|c s IH]; simpl; [reflexivity|].
  destruct (isspace c) eqn:Hc; [exact IH|]. simpl. now rewrite Hc.
Qed.

Lemma strip_edge_trimmed (s : str) : edge_trimmed (strip s) = true.
Proof.
  unfold edge_trimmed. apply andb_true_intro. split.
  - unfold strip.
    rewrite <- (lstrip_rstrip_fixed (lstrip s)) by apply lstrip_lstrip.
    apply lstrip_head.
  - unfold strip, rstrip. rewrite rev_involutive. apply lstrip_head.
Qed.

Lemma trimmed_stream_trimmed (s : option str) :
  stream_trimmed (trimmed s) = true.
Proof. destruct s; simpl; [apply strip_edge_trimmed | reflexivity]. Qed.

End StripEdges.

(** ** Facts about dicts with distinct keys *)

Section DictKeys.

Lemma dict_get_set_same (k : string) (v : pyobj) (d : dict) :
  Dict.get k (Dict.set k v d) = Some v.
Proof.
  induction d as [|[k0 v0] d IH]; simpl.
  - now rewrite String.eqb_refl.
  - destruct (String.eqb k k0) eqn:E; simpl; rewrite E;
      [reflexivity | exact IH].
Qed.

Lemma dict_del_absent (k : string) (d : dict) :
  Dict.contains k d = false -> Dict.del k d = d.
Proof.
  induction d as [|[k0 v0] d IH]; simpl; [reflexivity|].
  intros H. apply orb_false_elim in H. destruct H as [H1 H2].
  rewrite H1. now rewrite IH.
Qed.

Lemma dict_contains_del_other (k k' : string) (d : dict) :
  String.eqb k k' = false ->
  Dict.contains k (Dict.del k' d) = Dict.contains k d.
Proof. intros H. now rewrite !dict_contains_get, dict_get_del_other. Qed.

Lemma dict_contains_set (k k' : string) (v : pyobj) (d : dict) :
  Dict.contains k (Dict.set k' v d) = String.eqb k k' || Dict.contains k d.
Proof.
  induction d as [|[k0 v0] d IH]; simpl.
  - reflexivity.
  - destruct (String.eqb k' k0) eqn:E; simpl.
    + apply String.eqb_eq in E. subst k0.
      destruct (String.eqb k k'); reflexivity.
    + rewrite IH.
      destruct (String.eqb k k0), (String.eqb k k'); reflexivity.
Qed.

Lemma dict_contains_del (k k' : string) (d : dict) :
  Dict.contains k (Dict.del k' d) = true -> Dict.contains k d = true.
Proof.
  induction d as [|[k0 v0] d IH]; simpl; [auto|].
  destruct (String.eqb k' k0); simpl.
  - intros H. rewrite H. apply orb_true_r.
  - destruct (String.eqb k k0); simpl; auto.
Qed.

Lemma keys_distinct_del (k : string) (d : dict) :
  keys_distinct d = true -> keys_distinct (Dict.del k d) = true.
Proof.
  induction d as [|[k0 v0] d IH]; simpl; [auto|].
  intros H. apply andb_prop in H. destruct H as [H1 H2].
  destruct (String.eqb k k0); [exact H2|].
  simpl. rewrite IH by exact H2. rewrite andb_true_r.
  destruct (Dict.contains k0 (Dict.del k d)) eqn:E; [|reflexivity].
  apply dict_contains_del in E. rewrite E in H1. discriminate H1.
Qed.

Lemma dict_contains_del_same (k : string) (d : dict) :
  keys_distinct d = true -> Dict.contains k (Dict.del k d) = false.
Proof.
  induction d as [|[k0 v0] d IH]; simpl; [auto|].
  intros H. apply andb_prop in H. destruct H as [H1 H2].
  destruct (String.eqb k k0) eqn:E.
  - apply String.eqb_eq in E. subst k0. now apply negb_true_iff in H1.
  - simpl. rewrite E. simpl. apply IH, H2.
Qed.

Lemma keys_distinct_set (k : string) (v : pyobj) (d : dict) :
  keys_distinct d = true -> keys_distinct (Dict.set k v d) = true.
Proof.
  induction d as [|[k0 v0] d IH]; simpl; [reflexivity|].
  intros H. apply andb_prop in H. destruct H as [H1 H2].
  destruct (String.eqb k k0) eqn:E; simpl.
  - now rewrite H1, H2.
  - rewrite dict_contains_set, IH by exact H2.
    rewrite (String.eqb_sym k0 k), E. simpl. now rewrite H1.
Qed.

(** The keyword arguments [get_run_args] returns, in closed form. *)
Lemma get_run_kwargs_closed (kwargs : dict) :
  snd (get_run_kwargs kwargs)
  = Dict.del "glob"
      (if interactive_option kwargs then
         Dict.update (Dict.del "interactive" kwargs)
           [("stdin", sys_stdin); ("stdout", sys_stdout);
            ("stderr", sys_stderr)]%string
       else Dict.del "interactive" kwargs).
Proof.
  unfold get_run_kwargs, interactive_option.
  pose proof (dict_contains_get "interactive" kwargs) as Hi.
  destruct (Dict.get "interactive" kwargs) as [v|] eqn:Ei; rewrite Hi.
  - destruct (truthy v);
      match goal with
      | |- context [Dict.contains "glob" ?k] =>
        pose proof (dict_contains_get "glob" k) as Hg;
        destruct (Dict.get "glob" k) eqn:Eg; rewrite Hg;
        [reflexivity | cbn [snd]; now rewrite (dict_del_absent "glob" _ Hg)]
      end.
  - rewrite (dict_del_absent "interactive" kwargs) by exact Hi.
    pose proof (dict_contains_get "glob" kwargs) as Hg.
    destruct (Dict.get "glob" kwargs) eqn:Eg; rewrite Hg;
      [reflexivity | cbn [snd]; now rewrite (dict_del_absent "glob" _ Hg)].
Qed.

Lemma get_run_kwargs_get (kwargs : dict) (key : string) :
  normalizer_touches kwargs key = false ->
  Dict.get key (snd (get_run_kwargs kwargs)) = Dict.get key kwargs.
Proof.
  intros H. unfold normalizer_touches in H.
  apply orb_false_elim in H. destruct H as [H H3].
  apply orb_false_elim in H. destruct H as [H1 H2].
  rewrite get_run_kwargs_closed, dict_get_del_other by exact H2.
  destruct (interactive_option kwargs).
  - simpl in H3. unfold stream_key in H3.
    apply orb_false_elim in H3. destruct H3 as [H3 H5].
    apply orb_false_elim in H3. destruct H3 as [H3 H4].
    unfold Dict.update. simpl.
    rewrite !dict_get_set_other by assumption.
    now apply dict_get_del_other.
  - now apply dict_get_del_other.
Qed.

Lemma get_run_kwargs_interactive (kwargs : dict) :
  interactive_option kwargs = true ->
  Dict.get "stdin" (snd (get_run_kwargs kwargs)) = Some sys_stdin /\
  Dict.get "stdout" (snd (get_run_kwargs kwargs)) = Some sys_stdout /\
  Dict.get "stderr" (snd (get_run_kwargs kwargs)) = Some sys_stderr.
Proof.
  intros H. rewrite get_run_kwargs_closed, H.
  rewrite !dict_get_del_other by reflexivity.
  unfold Dict.update. simpl. repeat split.
  - rewrite !dict_get_set_other by reflexivity. apply dict_get_set_same.
  - rewrite dict_get_set_other by reflexivity. apply dict_get_set_same.
  - apply dict_get_set_same.
Qed.

Lemma get_run_kwargs_distinct (kwargs : dict) :
  keys_distinct kwargs = true ->
  keys_distinct (snd (get_run_kwargs kwargs)) = true /\
  Dict.contains "interactive" (snd (get_run_kwargs kwargs)) = false /\
  Dict.contains "glob" (snd (get_run_kwargs kwargs)) = false.
Proof.
  intros H. rewrite get_run_kwargs_closed.
  set (k1 := if interactive_option kwargs then _ else _).
  assert (H1 : keys_distinct k1 = true /\
               Dict.contains "interactive" k1 = false).
  { subst k1. destruct (interactive_option kwargs).
    - unfold Dict.update. simpl. split.
      + now repeat apply keys_distinct_set; apply keys_distinct_del.
      + rewrite !dict_contains_set. simpl.
        now apply dict_contains_del_same.
    - split; [now apply keys_distinct_del
             | now apply dict_contains_del_same]. }
  destruct H1 as [Hd Hi]. repeat split.
  - now apply keys_distinct_del.
  - rewrite dict_contains_del_other by reflexivity. exact Hi.
  - now apply dict_contains_del_same.
Qed.

Lemma pipe_defaults_get_stdout (d : dict) :
  Dict.get "stdout" (pipe_defaults d) = Some (or_pipe (Dict.get "stdout" d)).
Proof.
  unfold pipe_defaults. simpl.
  pose proof (dict_contains_get "stdout" d) as Ho.
  destruct (Dict.get "stdout" d) as [v|] eqn:Eo; rewrite Ho; simpl;
    match goal with
    | |- context [Dict.contains "stderr" ?k] =>
      destruct (Dict.contains "stderr" k); simpl
    end;
    rewrite ?dict_get_set_other by reflexivity;
    rewrite ?dict_get_set_same; auto.
Qed.

Lemma pipe_defaults_get_stderr (d : dict) :
  Dict.get "stderr" (pipe_defaults d) = Some (or_pipe (Dict.get "stderr" d)).
Proof.
  unfold pipe_defaults. simpl.
  match goal with
  | |- context [Dict.contains "stderr" ?k] => set (d1 := k)
  end.
  assert (H1 : Dict.get "stderr" d1 = Dict.get "stderr" d).
  { subst d1. destruct (Dict.contains "stdout" d); simpl; [reflexivity|].
    now apply dict_get_set_other. }
  pose proof (dict_contains_get "stderr" d1) as He.
  rewrite H1 in He.
  destruct (Dict.get "stderr" d) as [v|] eqn:Ee; rewrite He; simpl.
  - now rewrite H1.
  - apply dict_get_set_same.
Qed.

Lemma pipe_defaults_get_other (key : string) (d : dict) :
  String.eqb key "stdout" = false -> String.eqb key "stderr" = false ->
  Dict.get key (pipe_defaults d) = Dict.get key d.
Proof.
  intros Ho He. unfold pipe_defaults. simpl.
  destruct (Dict.contains "stdout" d); simpl;
    match goal with
    | |- context [Dict.contains "stderr" ?k] =>
      destruct (Dict.contains "stderr" k); simpl
    end;
    now rewrite ?dict_get_set_other by assumption.
Qed.

End DictKeys.

(** ** Computations that start no process *)

Section Quiet.

Lemma spawns_app (t1 t2 : trace) :
  spawns (t1 ++ t2) = (spawns t1 + spawns t2)%nat.
Proof. unfold spawns. now rewrite filter_app, length_app. Qed.

Lemma spawns_resolved_events (g : pyobj) (cmd : list str) :
  spawns (flat_map (resolved_events g) cmd) = 0%nat.
Proof.
  induction cmd as [|arg rest IH]; simpl; [reflexivity|].
  rewrite spawns_app, IH. unfold resolved_events.
  destruct (is_globbed g arg); reflexivity.
Qed.

Lemma quiet_ret {A} (a : A) : quiet (ret a).
Proof. intros t. exists []. simpl. now rewrite app_nil_r. Qed.

Lemma quiet_raise {A} (e : exn) : quiet (@raise A e).
Proof. intros t. exists []. simpl. now rewrite app_nil_r. Qed.

Lemma quiet_lift {A} (o : outcome A) : quiet (lift o).
Proof. intros t. exists []. simpl. now rewrite app_nil_r. Qed.

Lemma quiet_log lv msg p : quiet (log lv msg p).
Proof. intros t. exists [EvLog lv msg p]. split; reflexivity. Qed.

Lemma quiet_bind {A B} (c : M A) (k : A -> M B) :
  quiet c -> (forall a, quiet (k a)) -> quiet (bind c k).
Proof.
  intros Hc Hk t. unfold bind.
  destruct (Hc t) as [a1 [H1 S1]]. destruct (c t) as [[a|e] t'] eqn:E;
    simpl in H1; subst t'.
  - destruct (Hk a (t ++ a1)) as [a2 [H2 S2]].
    exists (a1 ++ a2). rewrite H2, app_assoc, spawns_app, S1, S2.
    split; reflexivity.
  - exists a1. split; [reflexivity | exact S1].
Qed.

Lemma quiet_when (c : bool) (body : M unit) :
  quiet body -> quiet (when c body).
Proof. intros H. destruct c; [exact H | apply quiet_ret]. Qed.

End Quiet.

Ltac quiet_auto :=
  repeat first
    [ apply quiet_bind; [| intros ? ]
    | apply quiet_when
    | apply quiet_ret | apply quiet_raise | apply quiet_lift
    | apply quiet_log
    | match goal with
      | |- quiet (match ?x with _ => _ end) => destruct x
      end ].

(** ** Further facts about [get_run_args], [format_output] and [run] *)

Section Outcomes.

Variable P : Platform.

(** Arguments that are not globbed are the list [get_run_args] returns,
    and nothing is added to the trace. *)
Lemma resolved_not_globbed (g : pyobj) (cmd : list str) :
  forallb (fun arg => negb (is_globbed g arg)) cmd = true ->
  resolved P g cmd = cmd /\ flat_map (resolved_events g) cmd = [].
Proof.
  induction cmd as [|arg rest IH]; [split; reflexivity|].
  intros H. simpl in H. apply andb_prop in H. destruct H as [H1 H2].
  apply negb_true_iff in H1. destruct (IH H2) as [Ha Hb].
  change (resolved P g (arg :: rest))
    with (resolved_arg P g arg ++ resolved P g rest).
  change (flat_map (resolved_events g) (arg :: rest))
    with (resolved_events g arg ++ flat_map (resolved_events g) rest).
  rewrite Ha, Hb. unfold resolved_arg, resolved_events. rewrite H1.
  split; reflexivity.
Qed.

Lemma format_output_undecodable_exn (r : proc_result) :
  decoded (stdout r) = None \/ decoded (stderr r) = None ->
  format_output r = Raise UnicodeDecodeError.
Proof.
  destruct r as [a rc out err sx]. simpl.
  intros [H|H]; unfold decoded in H; unfold format_output; simpl.
  - destruct out as [[b|s]|]; try discriminate H. simpl in H.
    destruct err as [[b'|s']|]; simpl;
      try destruct (decode b'); simpl;
      destruct (decode b); try discriminate H; reflexivity.
  - destruct err as [[b|s]|]; try discriminate H. simpl in H. simpl.
    destruct (decode b); try discriminate H; reflexivity.
Qed.

(** What [format_output] returned, from what it was given. *)
Lemma format_output_inv (r r1 : proc_result) :
  format_output r = Ok r1 ->
  exists tout terr,
    decoded (stdout r) = Some tout /\ decoded (stderr r) = Some terr /\
    r1 = mk_result (args r) (returncode r) (trimmed tout) (trimmed terr)
           (combined terr tout).
Proof.
  intros H.
  destruct (decoded (stdout r)) as [tout|] eqn:Hout.
  - destruct (decoded (stderr r)) as [terr|] eqn:Herr.
    + rewrite (format_output_decoded r tout terr Hout Herr) in H.
      injection H as <-. eauto.
    + rewrite (format_output_undecodable_exn r (or_intror Herr)) in H.
      discriminate H.
  - rewrite (format_output_undecodable_exn r (or_introl Hout)) in H.
    discriminate H.
Qed.

Lemma format_output_raise (r : proc_result) (e : exn) :
  format_output r = Raise e ->
  e = UnicodeDecodeError /\
  (decoded (stdout r) = None \/ decoded (stderr r) = None).
Proof.
  intros H.
  destruct (decoded (stdout r)) as [tout|] eqn:Hout.
  - destruct (decoded (stderr r)) as [terr|] eqn:Herr.
    + rewrite (format_output_decoded r tout terr Hout Herr) in H.
      discriminate H.
    + rewrite (format_output_undecodable_exn r (or_intror Herr)) in H.
      injection H as <-. auto.
  - rewrite (format_output_undecodable_exn r (or_introl Hout)) in H.
    injection H as <-. auto.
Qed.

(** The argument list, the keyword arguments and the trace of the [try]
    suite of [run] up to the call of [subprocess.run]. *)
Lemma run_setup_spec (cmd : list str) (kw : dict) (t : trace) :
  exists v added,
    run_setup P cmd kw t
    = (Ok (resolved P (glob_option kw) cmd, subprocess_kwargs kw, v),
       t ++ added) /\
    spawns added = 0%nat.
Proof.
  unfold run_setup, bind at 1. rewrite get_run_args_spec.
  unfold subprocess_kwargs.
  set (a := resolved P (glob_option kw) cmd).
  remember (snd (get_run_kwargs kw)) as k0 eqn:Hk0. clear Hk0.
  set (t0 := flat_map (resolved_events (glob_option kw)) cmd).
  assert (Ht0 : spawns t0 = 0%nat) by apply spawns_resolved_events.
  assert (Hverbose : exists v added1,
    (if Dict.nonempty k0 then
       if Dict.contains "verbose" k0 then
         match Dict.get "verbose" k0 with
         | Some verbose =>
           when (truthy verbose)
             (log Info "args: " (PArgs a) ;;
              log Info "kwargs: " (PKwargs k0)) ;;
           ret (verbose, Dict.del "verbose" k0)
         | None => ret (PyBool false, k0)
         end
       else ret (PyBool false, k0)
     else ret (PyBool false, k0)) (t ++ t0)
    = (Ok (v, Dict.del "verbose" k0), (t ++ t0) ++ added1) /\
    spawns added1 = 0%nat).
  { pose proof (dict_contains_get "verbose" k0) as Hc.
    destruct (Dict.nonempty k0) eqn:Hn.
    - destruct (Dict.get "verbose" k0) as [v|] eqn:Hg; rewrite Hc.
      + destruct (truthy v) eqn:Hv.
        * exists v, [EvLog Info "args: " (PArgs a);
                     EvLog Info "kwargs: " (PKwargs k0)].
          unfold bind, when, log, emit, ret. rewrite <- !app_assoc.
          split; reflexivity.
        * exists v, []. unfold bind, when, ret. rewrite !app_nil_r.
          split; reflexivity.
      + exists (PyBool false), [].
        rewrite (dict_del_absent "verbose" k0 Hc), !app_nil_r.
        split; reflexivity.
    - exists (PyBool false), [].
      destruct k0; [|discriminate Hn]. rewrite !app_nil_r.
      split; reflexivity. }
  destruct Hverbose as [v [added1 [Hverbose Hs1]]].
  unfold bind at 1. cbv beta iota. rewrite Hverbose.
  remember (Dict.del "verbose" k0) as k1 eqn:Hk1. clear Hk1.
  pose proof (dict_contains_get "output_bytes" k1) as Hc.
  destruct (Dict.get "output_bytes" k1) as [ob|] eqn:Hg; rewrite Hc.
  - destruct (truthy v) eqn:Hv.
    + exists v, (t0 ++ added1 ++ [EvLog Info "output bytes: " (PObj ob)]).
      unfold bind, when, log, emit, ret. rewrite <- !app_assoc.
      split; [reflexivity|].
      rewrite !spawns_app, Ht0, Hs1. reflexivity.
    + exists v, (t0 ++ added1).
      unfold bind, when, ret. rewrite <- !app_assoc.
      split; [reflexivity|].
      rewrite !spawns_app, Ht0, Hs1. reflexivity.
  - exists v, (t0 ++ added1).
    rewrite (dict_del_absent "output_bytes" k1 Hc), <- !app_assoc.
    split; [reflexivity|].
    rewrite !spawns_app, Ht0, Hs1. reflexivity.
Qed.

(** [run] after its [try] suite reached the call of [subprocess.run]. *)
Lemma run_at_setup cmd kw t a k v t1 :
  run_setup P cmd kw t = (Ok (a, k, v), t1) ->
  run P cmd kw t
  = match os_run P a k with
    | Exited code out err =>
      if Z.eqb code 0
      then run_else cmd v (mk_result a code out err None)
             (t1 ++ [EvRun a k])
      else run_except cmd
             (CalledProcessError (mk_result a code out err None))
             (t1 ++ [EvRun a k])
    | RunFault e => run_except cmd e (t1 ++ [EvRun a k])
    end.
Proof.
  intros H. unfold run, _init_log, bind at 1, ret at 1, try_except.
  unfold bind at 1. rewrite H.
  unfold bind at 1, subprocess_run, bind at 1, emit at 1.
  destruct (os_run P a k) as [code out err|e];
    [destruct (Z.eqb code 0)|]; reflexivity.
Qed.

Lemma run_else_returns cmd v r t r1 t' :
  run_else cmd v r t = (Ok r1, t') -> format_output r = Ok r1.
Proof.
  unfold run_else, bind, when, lift, log, emit, ret.
  destruct (truthy v); destruct (format_output r);
    intros H; inversion H; reflexivity.
Qed.

Lemma run_else_raises cmd v r t e t' :
  run_else cmd v r t = (Raise e, t') -> format_output r = Raise e.
Proof.
  unfold run_else, bind, when, lift, log, emit, ret.
  destruct (truthy v); destruct (format_output r);
    intros H; inversion H; reflexivity.
Qed.

(** The [except] clauses of [run] end in [raise]. *)
Lemma run_except_raises cmd e t :
  exists e' t', run_except cmd e t = (Raise e', t').
Proof.
  destruct e; unfold run_except, handle_run_error;
    cbv beta iota zeta delta [bind log emit lift raise];
    try (do 2 eexists; reflexivity).
  destruct (format_output cpe) as [c1|e1]; [|do 2 eexists; reflexivity].
  destruct (update_stderrout c1); do 2 eexists; reflexivity.
Qed.

Lemma run_except_failure cmd e t r1 t' :
  run_except cmd e t = (Raise (CalledProcessError r1), t') ->
  exists r0, e = CalledProcessError r0 /\ format_output r0 = Ok r1.
Proof.
  destruct e; unfold run_except, handle_run_error;
    cbv beta iota zeta delta [bind log emit lift raise];
    intros H; try (inversion H; fail).
  destruct (format_output cpe) as [c1|e1] eqn:F.
  - rewrite update_stderrout_format_output, (format_output_fixed _ _ F) in H.
    inversion H. subst. exists cpe. auto.
  - inversion H. subst. apply format_output_raise in F.
    destruct F as [F _]. discriminate F.
Qed.

Lemma quiet_run_else cmd v r : quiet (run_else cmd v r).
Proof. unfold run_else. quiet_auto. Qed.

Lemma quiet_run_except cmd e : quiet (run_except cmd e).
Proof. unfold run_except, handle_run_error. quiet_auto. Qed.

(** A result [run] returns is what [format_output] made of a completed
    process with status 0 and the resolved argument list. *)
Lemma run_returns cmd kw t r t' :
  run P cmd kw t = (Ok r, t') ->
  exists out err,
    os_run P (resolved P (glob_option kw) cmd) (subprocess_kwargs kw)
    = Exited 0 out err /\
    format_output
      (mk_result (resolved P (glob_option kw) cmd) 0 out err None)
    = Ok r.
Proof.
  intros H. destruct (run_setup_spec cmd kw t) as [v [added [Hs _]]].
  rewrite (run_at_setup _ _ _ _ _ _ _ Hs) in H.
  destruct (os_run P (resolved P (glob_option kw) cmd)
              (subprocess_kwargs kw)) as [code out err|e].
  - destruct (Z.eqb code 0) eqn:Hc.
    + apply Z.eqb_eq in Hc. subst code. exists out, err.
      split; [reflexivity|].
      eapply run_else_returns; exact H.
    + match type of H with
      | run_except ?c ?e ?t0 = _ =>
        destruct (run_except_raises c e t0) as [e' [t2 He]]
      end.
      rewrite He in H. discriminate H.
  - match type of H with
    | run_except ?c ?e ?t0 = _ =>
      destruct (run_except_raises c e t0) as [e' [t2 He]]
    end.
    rewrite He in H. discriminate H.
Qed.

(** A [CalledProcessError] that [run] raises went through
    [format_output]. *)
Lemma run_raises_failure cmd kw t r t' :
  run P cmd kw t = (Raise (CalledProcessError r), t') ->
  exists r0, format_output r0 = Ok r.
Proof.
  intros H. destruct (run_setup_spec cmd kw t) as [v [added [Hs _]]].
  rewrite (run_at_setup _ _ _ _ _ _ _ Hs) in H.
  destruct (os_run P _ _) as [code out err|e].
  - destruct (Z.eqb code 0) eqn:Hc.
    + apply run_else_raises, format_output_raise in H.
      destruct H as [H _]. discriminate H.
    + apply run_except_failure in H. destruct H as [r0 [_ H]]. eauto.
  - apply run_except_failure in H. destruct H as [r0 [_ H]]. eauto.
Qed.

(** The call of [subprocess.run] in the trace of [run], with the
    argument list and the keyword arguments in closed form. *)
Lemma run_trace_kwargs (cmd : list str) (kw : dict) (t : trace) :
  exists before after,
    snd (run P cmd kw t)
    = t ++ before
        ++ EvRun (resolved P (glob_option kw) cmd) (subprocess_kwargs kw)
        :: after /\
    spawns before = 0%nat /\ spawns after = 0%nat.
Proof.
  destruct (run_setup_spec cmd kw t) as [v [added [Hs Hq]]].
  rewrite (run_at_setup _ _ _ _ _ _ _ Hs).
  exists added.
  destruct (os_run P _ _) as [code out err|e];
    [destruct (Z.eqb code 0)|];
    match goal with
    | |- context [run_else ?c ?v ?r ?t0] =>
      destruct (quiet_run_else c v r t0) as [after [H1 H2]]
    | |- context [run_except ?c ?e ?t0] =>
      destruct (quiet_run_except c e t0) as [after [H1 H2]]
    end;
    exists after; rewrite H1, <- !app_assoc; auto.
Qed.

End Outcomes.

(** ** Properties of the executors and of the normaliser *)

(** *** Output as bytes *)

(** C1 (the code departs from its documentation).  For
    [run('echo', 'a', output_bytes=True)] the process writes [b'a\n'];
    the option is read and deleted and never consulted, so the result
    holds the decoded and trimmed text ['a'] and not the captured bytes.
    Under the name [output_as_bytes] the option is not recognised at all
    and stays among the keyword arguments of [subprocess.run]. *)
Theorem run_output_bytes_is_ignored :
  os_run echo_platform [lit "echo"; lit "a"]
    [("stdout"%string, PIPE); ("stderr"%string, PIPE)]
  = Exited 0 (Some (Bytes [x61; x0a])) (Some (Bytes [])) /\
  fst (run echo_platform [lit "echo"; lit "a"]
         [("output_bytes"%string, PyBool true)] [])
  = Ok (mk_result [lit "echo"; lit "a"] 0
          (Some (Text (lit "a"))) (Some (Text [])) (Some (lit "a"))) /\
  snd (run echo_platform [lit "echo"; lit "a"]
         [("output_as_bytes"%string, PyBool true)] [])
  = [EvRun [lit "echo"; lit "a"]
       [("output_as_bytes"%string, PyBool true);
        ("stdout"%string, PIPE); ("stderr"%string, PIPE)]].
Proof. repeat split; vm_compute; reflexivity. Qed.

(** *** Recovery from a target that is not executable *)

(** C2 (the code departs from its documentation).  [Popen] fails with
    "Exec format error".  Whether the file starts with [#!] or not,
    [background] raises [NameError] for [command_str]: the file is never
    read, there is no second [Popen], and the fault of the operating
    system is not the exception the caller receives. *)
Theorem background_exec_format_error :
  background (noexec_platform (lit "#!")) [lit "./script"] [] []
  = (Raise (NameError "command_str"), [EvPopen [lit "./script"] []]) /\
  background (noexec_platform (lit "he")) [lit "./notes.txt"] [] []
  = (Raise (NameError "command_str"), [EvPopen [lit "./notes.txt"] []]).
Proof. split; vm_compute; reflexivity. Qed.

(** *** Successful commands *)

(** C3 (counterexample).  [printf '\377'] ends with status 0 and writes
    one byte that is not UTF-8: [run] raises [UnicodeDecodeError]. *)
Lemma run_exit0_binary_output :
  run_setup binary_platform [lit "printf"; lit "\377"] [] []
  = (Ok ([lit "printf"; lit "\377"],
         [("stdout"%string, PIPE); ("stderr"%string, PIPE)],
         PyBool false), []) /\
  os_run binary_platform [lit "printf"; lit "\377"]
    [("stdout"%string, PIPE); ("stderr"%string, PIPE)]
  = Exited 0 (Some (Bytes [xff])) (Some (Bytes [])) /\
  fst (run binary_platform [lit "printf"; lit "\377"] [] [])
  = Raise UnicodeDecodeError /\
  ~ exit0_always_returns.
Proof.
  split; [reflexivity|]. split; [reflexivity|]. split; [reflexivity|].
  intros H.
  destruct (H binary_platform [lit "printf"; lit "\377"] [] []
              [lit "printf"; lit "\377"]
              [("stdout"%string, PIPE); ("stderr"%string, PIPE)]
              (PyBool false) [] (Some (Bytes [xff])) (Some (Bytes []))
              eq_refl eq_refl) as [r [t' Hr]].
  vm_compute in Hr. discriminate Hr.
Qed.

(** C3 (amended).  For every command that ends with status 0 and whose
    captured stdout and stderr are each absent, text, or bytes that
    decode as UTF-8, [run] returns a result whose [stderrout] is the
    trimmed stderr followed by the trimmed stdout when both are present,
    the trimmed stream that is present when only one is, and [None] when
    both are absent. *)
Theorem run_exit0_combined_output
    (P : Platform) (cmd : list str) (kw : dict) (t : trace)
    (a : list str) (k : dict) (v : pyobj) (t1 : trace)
    (out err : option stream) (tout terr : option str) :
  run_setup P cmd kw t = (Ok (a, k, v), t1) ->
  os_run P a k = Exited 0 out err ->
  decoded out = Some tout ->
  decoded err = Some terr ->
  exists r t',
    run P cmd kw t = (Ok r, t') /\
    returncode r = 0%Z /\
    stdout r = trimmed tout /\
    stderr r = trimmed terr /\
    stderrout r = match terr, tout with
                  | Some e, Some o => Some (strip e ++ strip o)
                  | Some e, None => Some (strip e)
                  | None, Some o => Some (strip o)
                  | None, None => None
                  end.
Proof.
  intros Hsetup Hos Hout Herr.
  destruct (run_success P cmd kw t a k v t1 out err tout terr
              Hsetup Hos Hout Herr) as [t' H].
  eexists. exists t'. split; [exact H|].
  repeat split.
Qed.

Lemma run_exit0_combined_output_witness :
  exists r t',
    run echo_platform [lit "echo"; lit "a"] [] [] = (Ok r, t') /\
    returncode r = 0%Z /\
    stdout r = Some (Text (lit "a")) /\
    stderr r = Some (Text []) /\
    stderrout r = Some (lit "a").
Proof.
  exact (run_exit0_combined_output echo_platform
           [lit "echo"; lit "a"] [] []
           [lit "echo"; lit "a"]
           [("stdout"%string, PIPE); ("stderr"%string, PIPE)]
           (PyBool false) []
           (Some (Bytes [x61; x0a])) (Some (Bytes []))
           (Some (lit "a" ++ [10%N])) (Some [])
           eq_refl eq_refl eq_refl eq_refl).
Defined.

(** *** Failing commands *)

(** C4 (counterexample).  A command that ends with status 1 after
    writing a byte that is not UTF-8: the caller receives
    [UnicodeDecodeError], not the [CalledProcessError]. *)
Lemma run_nonzero_binary_output :
  run_setup failing_binary_platform [lit "cat"; lit "blob"] [] []
  = (Ok ([lit "cat"; lit "blob"],
         [("stdout"%string, PIPE); ("stderr"%string, PIPE)],
         PyBool false), []) /\
  os_run failing_binary_platform [lit "cat"; lit "blob"]
    [("stdout"%string, PIPE); ("stderr"%string, PIPE)]
  = Exited 1 (Some (Bytes [xff])) (Some (Bytes [])) /\
  fst (run failing_binary_platform [lit "cat"; lit "blob"] [] [])
  = Raise UnicodeDecodeError /\
  ~ nonzero_always_raises_failure.
Proof.
  split; [reflexivity|]. split; [reflexivity|]. split; [reflexivity|].
  intros H.
  destruct (H failing_binary_platform [lit "cat"; lit "blob"] [] []
              [lit "cat"; lit "blob"]
              [("stdout"%string, PIPE); ("stderr"%string, PIPE)]
              (PyBool false) [] 1%Z (Some (Bytes [xff])) (Some (Bytes []))
              eq_refl eq_refl) as [r [t' [Hr _]]].
  - discriminate.
  - vm_compute in Hr. discriminate Hr.
Qed.

(** C4 (amended).  For every command that ends with a status other than
    0 and whose captured stdout and stderr are each absent, text, or
    bytes that decode as UTF-8, [run] raises a [CalledProcessError] that
    carries that status, the decoded and trimmed stdout and stderr and
    their combination in [stderrout]; the exception reaches the
    caller. *)
Theorem run_nonzero_raises_failure
    (P : Platform) (cmd : list str) (kw : dict) (t : trace)
    (a : list str) (k : dict) (v : pyobj) (t1 : trace) (code : Z)
    (out err : option stream) (tout terr : option str) :
  run_setup P cmd kw t = (Ok (a, k, v), t1) ->
  os_run P a k = Exited code out err ->
  code <> 0%Z ->
  decoded out = Some tout ->
  decoded err = Some terr ->
  exists r t',
    run P cmd kw t = (Raise (CalledProcessError r), t') /\
    returncode r = code /\
    stdout r = trimmed tout /\
    stderr r = trimmed terr /\
    stderrout r = combined terr tout.
Proof.
  intros Hsetup Hos Hcode Hout Herr.
  destruct (run_failure P cmd kw t a k v t1 code out err tout terr
              Hsetup Hos Hcode Hout Herr) as [t' H].
  eexists. exists t'. split; [exact H|].
  repeat split.
Qed.

Lemma run_nonzero_raises_failure_witness :
  exists r t',
    run ls_platform [lit "ls"; lit "/nonexistent"] [] []
    = (Raise (CalledProcessError r), t') /\
    returncode r = 2%Z /\
    stdout r = Some (Text []) /\
    stderr r = Some (Text (lit "no file")) /\
    stderrout r = Some (lit "no file").
Proof.
  refine (run_nonzero_raises_failure ls_platform
            [lit "ls"; lit "/nonexistent"] [] []
            [lit "ls"; lit "/nonexistent"]
            [("stdout"%string, PIPE); ("stderr"%string, PIPE)]
            (PyBool false) [] 2%Z
            (Some (Bytes []))
            (Some (Bytes [x6e; x6f; x20; x66; x69; x6c; x65; x0a]))
            (Some []) (Some (lit "no file" ++ [10%N]))
            eq_refl eq_refl _ eq_refl eq_refl).
  discriminate.
Defined.

(** *** Quoted arguments and wildcards *)

(** C5.  An argument that starts and ends with the same quote and holds
    [*] or [?] is never given to [glob], whatever the option [glob]
    says: it stands unchanged in the final list, between what the
    arguments before it and after it resolve to, and no call of [glob]
    made by [get_run_args] has it as its pattern. *)
Theorem quoted_wildcard_is_never_globbed
    (P : Platform) (pre post : list str) (arg : str) (kw : dict)
    (t : trace) :
  encased_str arg = true ->
  contains arg star || contains arg qmark = true ->
  exists kw' added,
    get_run_args P (pre ++ arg :: post) kw t
    = (Ok (resolved P (glob_option kw) pre ++ arg
             :: resolved P (glob_option kw) post, kw'),
       t ++ added) /\
    ~ In (EvGlob arg) added.
Proof.
  intros Henc _.
  rewrite get_run_args_spec. do 2 eexists. split.
  - rewrite resolved_app.
    change (resolved P (glob_option kw) (arg :: post))
      with (resolved_arg P (glob_option kw) arg
              ++ resolved P (glob_option kw) post).
    unfold resolved_arg.
    rewrite (encased_not_globbed (glob_option kw) arg Henc).
    reflexivity.
  - intros Hin. apply glob_event_is_globbed in Hin.
    rewrite (encased_not_globbed (glob_option kw) arg Henc) in Hin.
    discriminate Hin.
Qed.

Lemma quoted_wildcard_is_never_globbed_witness :
  exists kw' added,
    get_run_args echo_platform
      ([lit "ls"; lit "/tmp/denova*"]
         ++ (dquote ++ lit "/tmp/denova*" ++ dquote) :: [lit "-l"]) [] []
    = (Ok (resolved echo_platform (glob_option [])
             [lit "ls"; lit "/tmp/denova*"]
             ++ (dquote ++ lit "/tmp/denova*" ++ dquote)
             :: resolved echo_platform (glob_option []) [lit "-l"], kw'),
       [] ++ added) /\
    ~ In (EvGlob (dquote ++ lit "/tmp/denova*" ++ dquote)) added.
Proof.
  exact (quoted_wildcard_is_never_globbed echo_platform
           [lit "ls"; lit "/tmp/denova*"] [lit "-l"]
           (dquote ++ lit "/tmp/denova*" ++ dquote) [] []
           eq_refl eq_refl).
Defined.

(** C6.  With the option [glob] on (the default), an argument that
    holds [*] or [?], is not enclosed in quotes and matches nothing in
    the filesystem leaves no trace in the final list: the list is what
    the arguments before it resolve to followed by what the arguments
    after it resolve to. *)
Theorem unmatched_wildcard_is_dropped
    (P : Platform) (pre post : list str) (arg : str) (kw : dict)
    (t : trace) :
  contains arg star || contains arg qmark = true ->
  encased_str arg = false ->
  truthy (glob_option kw) = true ->
  fs_glob P arg = [] ->
  exists kw' t',
    get_run_args P (pre ++ arg :: post) kw t
    = (Ok (resolved P (glob_option kw) pre
             ++ resolved P (glob_option kw) post, kw'), t').
Proof.
  intros Hwild Henc Hglob Hnone.
  rewrite get_run_args_spec. do 2 eexists.
  rewrite resolved_app.
  change (resolved P (glob_option kw) (arg :: post))
    with (resolved_arg P (glob_option kw) arg
            ++ resolved P (glob_option kw) post).
  unfold resolved_arg, is_globbed.
  rewrite Hwild, Hglob, Henc, Hnone. reflexivity.
Qed.

Lemma unmatched_wildcard_is_dropped_witness :
  exists kw' t',
    get_run_args echo_platform
      ([lit "ls"; lit "-l"] ++ lit "/tmp/nomatch*" :: [lit "/tmp"]) [] []
    = (Ok (resolved echo_platform (glob_option []) [lit "ls"; lit "-l"]
             ++ resolved echo_platform (glob_option []) [lit "/tmp"], kw'),
       t').
Proof.
  exact (unmatched_wildcard_is_dropped echo_platform
           [lit "ls"; lit "-l"] [lit "/tmp"] (lit "/tmp/nomatch*") [] []
           eq_refl eq_refl eq_refl eq_refl).
Defined.

Example unmatched_wildcard_vanishes :
  fst (get_run_args echo_platform
         [lit "ls"; lit "-l"; lit "/tmp/nomatch*"; lit "/tmp"] [] [])
  = Ok ([lit "ls"; lit "-l"; lit "/tmp"], []).
Proof. reflexivity. Qed.

(** *** A command line given as one string *)

(** C7 (counterexample).  The single argument ["ls<TAB>-l"] holds white
    space and [shlex.split] would give [ls] and [-l], but the test of
    [background] looks for the space character only: [Popen] receives
    the one argument as it was given. *)
Lemma background_tab_is_not_split :
  has_whitespace (lit "ls" ++ [9%N] ++ lit "-l") = true /\
  shlex_split echo_platform (lit "ls" ++ [9%N] ++ lit "-l")
  = Ok [lit "ls"; lit "-l"] /\
  snd (background echo_platform [lit "ls" ++ [9%N] ++ lit "-l"] [] [])
  = [EvPopen [lit "ls" ++ [9%N] ++ lit "-l"] [];
     EvLog Debug "background process started: "
       (PProcess (mk_popen 4242 [lit "sleep"; lit "1"]))] /\
  ~ whitespace_argument_is_split.
Proof.
  split; [reflexivity|]. split; [reflexivity|]. split; [reflexivity|].
  intros H.
  specialize (H echo_platform (lit "ls" ++ [9%N] ++ lit "-l") [] []
                [lit "ls"; lit "-l"] eq_refl eq_refl).
  vm_compute in H. destruct H as [H|[H|[]]]; discriminate H.
Qed.

(** C7 (amended).  When [background] is given exactly one argument and
    that argument holds a space character (U+0020), the argument is
    given to [shlex.split] before anything is spawned: the words it
    returns are the argument list of [Popen], and an error it raises
    reaches the caller with nothing spawned.  A list of two or more
    arguments is given to [Popen] as it is. *)
Theorem single_argument_with_space_is_split
    (P : Platform) (arg : str) (kw : dict) (t : trace) :
  contains arg space = true ->
  match shlex_split P arg with
  | Ok toks =>
    exists after,
      snd (background P [arg] kw t)
      = t ++ EvShlexSplit arg :: EvPopen toks kw :: after
  | Raise e =>
    background P [arg] kw t = (Raise e, t ++ [EvShlexSplit arg])
  end /\
  forall a b rest,
    exists after,
      snd (background P (a :: b :: rest) kw t)
      = t ++ EvPopen (a :: b :: rest) kw :: after.
Proof.
  intros Hspace. split.
  - unfold background, _init_log, background_args. rewrite Hspace.
    cbv beta iota zeta delta [bind ret emit lift try_except Popen].
    destruct (shlex_split P arg) as [toks|e]; [|reflexivity].
    destruct (os_popen P toks kw) as [p|e].
    + destruct (extends_background_else p
                  ((t ++ [EvShlexSplit arg]) ++ [EvPopen toks kw]))
        as [after H].
      exists after. rewrite H. rewrite <- !app_assoc. reflexivity.
    + destruct (extends_background_except P toks kw e
                  ((t ++ [EvShlexSplit arg]) ++ [EvPopen toks kw]))
        as [after H].
      exists after. rewrite H. rewrite <- !app_assoc. reflexivity.
  - intros a b rest.
    unfold background, _init_log, background_args.
    cbv beta iota zeta delta [bind ret emit lift try_except Popen].
    destruct (os_popen P (a :: b :: rest) kw) as [p|e].
    + destruct (extends_background_else p
                  (t ++ [EvPopen (a :: b :: rest) kw])) as [after H].
      exists after. rewrite H. rewrite <- !app_assoc. reflexivity.
    + destruct (extends_background_except P (a :: b :: rest) kw e
                  (t ++ [EvPopen (a :: b :: rest) kw])) as [after H].
      exists after. rewrite H. rewrite <- !app_assoc. reflexivity.
Qed.

Lemma single_argument_with_space_is_split_witness :
  exists after,
    snd (background echo_platform [lit "sleep 1"] [] [])
    = [] ++ EvShlexSplit (lit "sleep 1")
         :: EvPopen [lit "sleep"; lit "1"] [] :: after.
Proof.
  exact (proj1 (single_argument_with_space_is_split echo_platform
                  (lit "sleep 1") [] [] eq_refl)).
Defined.

(** *** Invalid input *)

(** C8.  [background] given no argument raises [ValueError], and
    [wait_child] given anything that is not a [Popen] raises
    [ValueError]; in both cases the trace is left as it was: nothing
    was logged, spawned or waited for before the error, and nothing is
    tried again. *)
Theorem invalid_input_is_raised_at_once
    (P : Platform) (kw : dict) (process : pyobj) (t : trace) :
  isinstance_Popen process = false ->
  background P [] kw t = (Raise (ValueError "missing command"), t) /\
  wait_child P process t
  = (Raise (ValueError "program must be an instance of subprocess.Popen"),
     t).
Proof.
  intros H. split; [reflexivity|].
  unfold wait_child. rewrite H. reflexivity.
Qed.

Lemma invalid_input_is_raised_at_once_witness :
  background echo_platform [] [] [] = (Raise (ValueError "missing command"), [])
  /\
  wait_child echo_platform (PyStr (lit "4242")) []
  = (Raise (ValueError "program must be an instance of subprocess.Popen"),
     []).
Proof.
  exact (invalid_input_is_raised_at_once echo_platform []
           (PyStr (lit "4242")) [] eq_refl).
Defined.

Example wait_child_of_a_process :
  wait_child echo_platform (PyPopen (mk_popen 4242 [lit "sleep"; lit "1"])) []
  = (Ok tt, [EvWaitpid 4242 0]).
Proof. reflexivity. Qed.

(** *** Formatting twice *)

(** C9.  Applying [format_output] to what [format_output] returned gives
    that same result again: stdout, stderr and [stderrout] (and the
    other attributes) are those of the first application; when the first
    application raises, so does the composition, with the same
    exception. *)
Theorem format_output_idempotent (r : proc_result) :
  obind (format_output r) format_output = format_output r.
Proof.
  destruct (format_output r) as [r1|e] eqn:E; simpl.
  - exact (format_output_fixed r r1 E).
  - reflexivity.
Qed.

Example format_output_twice :
  obind (format_output
           (mk_result [lit "echo"] 0 (Some (Bytes [x20; x61; x0a]))
              (Some (Bytes [x62; x20])) None))
        format_output
  = Ok (mk_result [lit "echo"] 0 (Some (Text (lit "a")))
          (Some (Text (lit "b"))) (Some (lit "ba"))).
Proof. reflexivity. Qed.

(** *** Quotes are kept *)

(** C10.  An argument that starts and ends with the same quote is part
    of the argument list [run] hands to [subprocess.run] exactly as it
    was given, quotes included, at its place between what the arguments
    before it and after it resolve to. *)
Theorem quoted_argument_reaches_process_verbatim
    (P : Platform) (pre post : list str) (arg : str) (kw : dict)
    (t : trace) :
  encased_str arg = true ->
  exists k before after,
    snd (run P (pre ++ arg :: post) kw t)
    = t ++ before
        ++ EvRun (resolved P (glob_option kw) pre ++ arg
                    :: resolved P (glob_option kw) post) k
        :: after.
Proof.
  intros Henc.
  destruct (run_trace P (pre ++ arg :: post) kw t) as [k [before [after H]]].
  exists k, before, after. rewrite H.
  rewrite resolved_app.
  change (resolved P (glob_option kw) (arg :: post))
    with (resolved_arg P (glob_option kw) arg
            ++ resolved P (glob_option kw) post).
  unfold resolved_arg.
  rewrite (encased_not_globbed (glob_option kw) arg Henc).
  reflexivity.
Qed.

Lemma quoted_argument_reaches_process_verbatim_witness :
  exists k before after,
    snd (run echo_platform
           ([lit "echo"] ++ (squote ++ lit "a b" ++ squote) :: []) [] [])
    = [] ++ before
        ++ EvRun (resolved echo_platform (glob_option []) [lit "echo"]
                    ++ (squote ++ lit "a b" ++ squote)
                    :: resolved echo_platform (glob_option []) []) k
        :: after.
Proof.
  exact (quoted_argument_reaches_process_verbatim echo_platform
           [lit "echo"] [] (squote ++ lit "a b" ++ squote) [] []
           eq_refl).
Defined.

(** ** Further properties of the module *)

(** *** The keyword arguments of [subprocess.run] *)

Section SubprocessKwargs.

Lemma pipe_defaults_contains_other (key : string) (d : dict) :
  String.eqb key "stdout" = false -> String.eqb key "stderr" = false ->
  Dict.contains key (pipe_defaults d) = Dict.contains key d.
Proof.
  intros Ho He. now rewrite !dict_contains_get, pipe_defaults_get_other.
Qed.

Lemma subprocess_kwargs_get_other (kw : dict) (key : string) :
  String.eqb key "verbose" = false ->
  String.eqb key "output_bytes" = false ->
  String.eqb key "stdout" = false -> String.eqb key "stderr" = false ->
  Dict.get key (subprocess_kwargs kw)
  = Dict.get key (snd (get_run_kwargs kw)).
Proof.
  intros Hv Hb Ho He. unfold subprocess_kwargs.
  rewrite pipe_defaults_get_other by assumption.
  now rewrite !dict_get_del_other by assumption.
Qed.

Lemma subprocess_kwargs_get_stdout (kw : dict) :
  Dict.get "stdout" (subprocess_kwargs kw)
  = Some (or_pipe (Dict.get "stdout" (snd (get_run_kwargs kw)))).
Proof.
  unfold subprocess_kwargs. rewrite pipe_defaults_get_stdout.
  now rewrite !dict_get_del_other by reflexivity.
Qed.

Lemma subprocess_kwargs_get_stderr (kw : dict) :
  Dict.get "stderr" (subprocess_kwargs kw)
  = Some (or_pipe (Dict.get "stderr" (snd (get_run_kwargs kw)))).
Proof.
  unfold subprocess_kwargs. rewrite pipe_defaults_get_stderr.
  now rewrite !dict_get_del_other by reflexivity.
Qed.

Lemma subprocess_kwargs_consumed (kw : dict) :
  keys_distinct kw = true ->
  Dict.contains "interactive" (subprocess_kwargs kw) = false /\
  Dict.contains "glob" (subprocess_kwargs kw) = false /\
  Dict.contains "verbose" (subprocess_kwargs kw) = false /\
  Dict.contains "output_bytes" (subprocess_kwargs kw) = false.
Proof.
  intros H. destruct (get_run_kwargs_distinct kw H) as [Hd [Hi Hg]].
  unfold subprocess_kwargs.
  remember (snd (get_run_kwargs kw)) as k0 eqn:Hk0. clear Hk0.
  rewrite !pipe_defaults_contains_other by reflexivity.
  repeat split.
  - now rewrite !dict_contains_del_other by reflexivity.
  - now rewrite !dict_contains_del_other by reflexivity.
  - rewrite dict_contains_del_other by reflexivity.
    now apply dict_contains_del_same.
  - apply dict_contains_del_same. now apply keys_distinct_del.
Qed.

End SubprocessKwargs.

(** *** The argument list [get_run_args] returns *)

(** X1.  With the option [glob] given a false value, [get_run_args]
    returns the arguments it was given, wildcards included, in their
    order; [glob] is not called and nothing is logged. *)
Theorem glob_off_keeps_arguments
    (P : Platform) (cmd : list str) (kw : dict) (t : trace) :
  truthy (glob_option kw) = false ->
  get_run_args P cmd kw t = (Ok (cmd, snd (get_run_kwargs kw)), t).
Proof.
  intros H. rewrite get_run_args_spec.
  destruct (resolved_not_globbed P (glob_option kw) cmd) as [Ha Hb].
  { apply forallb_forall. intros arg _. unfold is_globbed. rewrite H.
    simpl. now rewrite andb_false_r. }
  now rewrite Ha, Hb, app_nil_r.
Qed.

Lemma glob_off_keeps_arguments_witness :
  get_run_args ls_platform [lit "ls"; lit "/tmp/denova*"]
    [("glob"%string, PyInt 0)] []
  = (Ok ([lit "ls"; lit "/tmp/denova*"],
         snd (get_run_kwargs [("glob"%string, PyInt 0)])), []).
Proof.
  exact (glob_off_keeps_arguments ls_platform
           [lit "ls"; lit "/tmp/denova*"] [("glob"%string, PyInt 0)] []
           eq_refl).
Defined.

(** X2.  Arguments that hold neither [*] nor [?] are returned as they
    were given, whatever the option [glob] holds; [glob] is not called
    and nothing is logged. *)
Theorem plain_arguments_are_kept
    (P : Platform) (cmd : list str) (kw : dict) (t : trace) :
  forallb (fun arg => negb (has_wildcard arg)) cmd = true ->
  get_run_args P cmd kw t = (Ok (cmd, snd (get_run_kwargs kw)), t).
Proof.
  intros H. rewrite get_run_args_spec.
  destruct (resolved_not_globbed P (glob_option kw) cmd) as [Ha Hb].
  { rewrite forallb_forall in *. intros arg Hin.
    specialize (H arg Hin). apply negb_true_iff in H.
    unfold has_wildcard in H. unfold is_globbed. now rewrite H. }
  now rewrite Ha, Hb, app_nil_r.
Qed.

Lemma plain_arguments_are_kept_witness :
  get_run_args echo_platform [lit "ls"; lit "-l"; lit "/tmp"] [] []
  = (Ok ([lit "ls"; lit "-l"; lit "/tmp"], snd (get_run_kwargs [])), []).
Proof.
  exact (plain_arguments_are_kept echo_platform
           [lit "ls"; lit "-l"; lit "/tmp"] [] [] eq_refl).
Defined.

(** X3.  With globbing on, an argument that holds a wildcard and is not
    encased in quotes is replaced, at its place in the list, by the
    paths [glob] returns for it, in the order [glob] returns them; the
    arguments before and after are resolved on their own.  [glob] is
    called once for the argument and the call is logged after it. *)
Theorem wildcard_is_replaced_by_its_matches
    (P : Platform) (pre post : list str) (arg : str) (kw : dict)
    (t : trace) :
  has_wildcard arg = true ->
  encased_str arg = false ->
  truthy (glob_option kw) = true ->
  get_run_args P (pre ++ arg :: post) kw t
  = (Ok (resolved P (glob_option kw) pre ++ fs_glob P arg
           ++ resolved P (glob_option kw) post,
         snd (get_run_kwargs kw)),
     t ++ flat_map (resolved_events (glob_option kw)) pre
       ++ [EvGlob arg; EvLog Info "globbed: " (PArgs [arg])]
       ++ flat_map (resolved_events (glob_option kw)) post).
Proof.
  intros Hwild Henc Hglob. unfold has_wildcard in Hwild.
  rewrite get_run_args_spec, resolved_app, flat_map_app.
  change (resolved P (glob_option kw) (arg :: post))
    with (resolved_arg P (glob_option kw) arg
            ++ resolved P (glob_option kw) post).
  change (flat_map (resolved_events (glob_option kw)) (arg :: post))
    with (resolved_events (glob_option kw) arg
            ++ flat_map (resolved_events (glob_option kw)) post).
  unfold resolved_arg, resolved_events, is_globbed.
  rewrite Hwild, Hglob, Henc. reflexivity.
Qed.

Lemma wildcard_is_replaced_by_its_matches_witness :
  get_run_args echo_platform
    ([lit "ls"; lit "-l"] ++ lit "/tmp/denova*" :: [lit "/etc"]) [] []
  = (Ok (resolved echo_platform (glob_option []) [lit "ls"; lit "-l"]
           ++ fs_glob echo_platform (lit "/tmp/denova*")
           ++ resolved echo_platform (glob_option []) [lit "/etc"],
         snd (get_run_kwargs [])),
     [] ++ flat_map (resolved_events (glob_option [])) [lit "ls"; lit "-l"]
       ++ [EvGlob (lit "/tmp/denova*");
           EvLog Info "globbed: " (PArgs [lit "/tmp/denova*"])]
       ++ flat_map (resolved_events (glob_option [])) [lit "/etc"]).
Proof.
  exact (wildcard_is_replaced_by_its_matches echo_platform
           [lit "ls"; lit "-l"] [lit "/etc"] (lit "/tmp/denova*") [] []
           eq_refl eq_refl eq_refl).
Defined.

Example wildcard_matches_in_place :
  fst (get_run_args echo_platform
         [lit "ls"; lit "-l"; lit "/tmp/denova*"; lit "/etc"] [] [])
  = Ok ([lit "ls"; lit "-l"; lit "/tmp/denova.log"; lit "/tmp/denova.tmp";
         lit "/etc"], []).
Proof. reflexivity. Qed.

(** *** The keyword arguments [get_run_args] returns *)

(** X4.  When [interactive] holds a true value, the keyword arguments
    [get_run_args] returns direct the three streams to [sys.stdin],
    [sys.stdout] and [sys.stderr], also when the caller gave a stream of
    its own. *)
Theorem interactive_uses_the_terminal_streams
    (P : Platform) (cmd : list str) (kw : dict) (t : trace) :
  interactive_option kw = true ->
  exists a k,
    fst (get_run_args P cmd kw t) = Ok (a, k) /\
    Dict.get "stdin" k = Some sys_stdin /\
    Dict.get "stdout" k = Some sys_stdout /\
    Dict.get "stderr" k = Some sys_stderr.
Proof.
  intros H. rewrite get_run_args_spec. do 2 eexists.
  split; [reflexivity|]. now apply get_run_kwargs_interactive.
Qed.

Lemma interactive_uses_the_terminal_streams_witness :
  exists a k,
    fst (get_run_args echo_platform [lit "top"]
           [("stdout"%string, PyFile "out.log");
            ("interactive"%string, PyBool true)] [])
    = Ok (a, k) /\
    Dict.get "stdin" k = Some sys_stdin /\
    Dict.get "stdout" k = Some sys_stdout /\
    Dict.get "stderr" k = Some sys_stderr.
Proof.
  exact (interactive_uses_the_terminal_streams echo_platform [lit "top"]
           [("stdout"%string, PyFile "out.log");
            ("interactive"%string, PyBool true)] [] eq_refl).
Defined.

(** X5.  [get_run_args] takes its own two options out: the keyword
    arguments it returns hold neither [interactive] nor [glob], and
    still hold every key once. *)
Theorem get_run_args_consumes_its_options
    (P : Platform) (cmd : list str) (kw : dict) (t : trace) :
  keys_distinct kw = true ->
  exists a k,
    fst (get_run_args P cmd kw t) = Ok (a, k) /\
    Dict.contains "interactive" k = false /\
    Dict.contains "glob" k = false /\
    keys_distinct k = true.
Proof.
  intros H. rewrite get_run_args_spec. do 2 eexists.
  split; [reflexivity|].
  destruct (get_run_kwargs_distinct kw H) as [Hd [Hi Hg]]. auto.
Qed.

Lemma get_run_args_consumes_its_options_witness :
  exists a k,
    fst (get_run_args echo_platform [lit "ls"]
           [("glob"%string, PyBool false); ("timeout"%string, PyInt 5);
            ("interactive"%string, PyBool true)] [])
    = Ok (a, k) /\
    Dict.contains "interactive" k = false /\
    Dict.contains "glob" k = false /\
    keys_distinct k = true.
Proof.
  exact (get_run_args_consumes_its_options echo_platform [lit "ls"]
           [("glob"%string, PyBool false); ("timeout"%string, PyInt 5);
            ("interactive"%string, PyBool true)] [] eq_refl).
Defined.

(** X6.  Every other keyword argument is returned with the value the
    caller gave ([timeout], [cwd], [shell], ...), and so are [stdin],
    [stdout] and [stderr] unless [interactive] holds a true value. *)
Theorem get_run_args_keeps_other_options
    (P : Platform) (cmd : list str) (kw : dict) (t : trace)
    (key : string) :
  normalizer_touches kw key = false ->
  exists a k,
    fst (get_run_args P cmd kw t) = Ok (a, k) /\
    Dict.get key k = Dict.get key kw.
Proof.
  intros H. rewrite get_run_args_spec. do 2 eexists.
  split; [reflexivity|]. now apply get_run_kwargs_get.
Qed.

Lemma get_run_args_keeps_other_options_witness :
  exists a k,
    fst (get_run_args echo_platform [lit "ls"]
           [("glob"%string, PyBool false);
            ("stdout"%string, PyFile "out.log");
            ("interactive"%string, PyBool false)] [])
    = Ok (a, k) /\
    Dict.get "stdout" k
    = Dict.get "stdout"
        [("glob"%string, PyBool false);
         ("stdout"%string, PyFile "out.log");
         ("interactive"%string, PyBool false)].
Proof.
  exact (get_run_args_keeps_other_options echo_platform [lit "ls"]
           [("glob"%string, PyBool false);
            ("stdout"%string, PyFile "out.log");
            ("interactive"%string, PyBool false)] [] "stdout" eq_refl).
Defined.

(** *** What [run] hands to [subprocess.run] *)

(** X7.  The options [run] and [get_run_args] read for themselves
    ([interactive], [glob], [verbose], [output_bytes]) are not among the
    keyword arguments of the call of [subprocess.run]. *)
Theorem run_consumes_its_own_options
    (P : Platform) (cmd : list str) (kw : dict) (t : trace) :
  keys_distinct kw = true ->
  exists k before after,
    snd (run P cmd kw t)
    = t ++ before ++ EvRun (resolved P (glob_option kw) cmd) k :: after /\
    Dict.contains "interactive" k = false /\
    Dict.contains "glob" k = false /\
    Dict.contains "verbose" k = false /\
    Dict.contains "output_bytes" k = false.
Proof.
  intros H.
  destruct (run_trace_kwargs P cmd kw t) as [before [after [Ht _]]].
  exists (subprocess_kwargs kw), before, after.
  split; [exact Ht|]. now apply subprocess_kwargs_consumed.
Qed.

Lemma run_consumes_its_own_options_witness :
  exists k before after,
    snd (run echo_platform [lit "echo"; lit "a"]
           [("verbose"%string, PyBool true);
            ("output_bytes"%string, PyBool false);
            ("glob"%string, PyBool false);
            ("interactive"%string, PyBool false);
            ("timeout"%string, PyInt 5)] [])
    = [] ++ before
        ++ EvRun (resolved echo_platform
                    (glob_option
                       [("verbose"%string, PyBool true);
                        ("output_bytes"%string, PyBool false);
                        ("glob"%string, PyBool false);
                        ("interactive"%string, PyBool false);
                        ("timeout"%string, PyInt 5)])
                    [lit "echo"; lit "a"]) k
        :: after /\
    Dict.contains "interactive" k = false /\
    Dict.contains "glob" k = false /\
    Dict.contains "verbose" k = false /\
    Dict.contains "output_bytes" k = false.
Proof.
  exact (run_consumes_its_own_options echo_platform [lit "echo"; lit "a"]
           [("verbose"%string, PyBool true);
            ("output_bytes"%string, PyBool false);
            ("glob"%string, PyBool false);
            ("interactive"%string, PyBool false);
            ("timeout"%string, PyInt 5)] [] eq_refl).
Defined.

(** X8.  Unless [interactive] holds a true value, [subprocess.run] is
    called with [stdout] and [stderr] as the caller gave them, and with
    [subprocess.PIPE] for the one the caller did not give. *)
Theorem run_captures_by_default
    (P : Platform) (cmd : list str) (kw : dict) (t : trace) :
  interactive_option kw = false ->
  exists k before after,
    snd (run P cmd kw t)
    = t ++ before ++ EvRun (resolved P (glob_option kw) cmd) k :: after /\
    Dict.get "stdout" k = Some (or_pipe (Dict.get "stdout" kw)) /\
    Dict.get "stderr" k = Some (or_pipe (Dict.get "stderr" kw)).
Proof.
  intros H.
  destruct (run_trace_kwargs P cmd kw t) as [before [after [Ht _]]].
  exists (subprocess_kwargs kw), before, after.
  split; [exact Ht|].
  rewrite subprocess_kwargs_get_stdout, subprocess_kwargs_get_stderr.
  rewrite !get_run_kwargs_get
    by (unfold normalizer_touches; now rewrite H).
  split; reflexivity.
Qed.

Lemma run_captures_by_default_witness :
  exists k before after,
    snd (run echo_platform [lit "echo"; lit "a"]
           [("stderr"%string, PyFile "err.log")] [])
    = [] ++ before
        ++ EvRun (resolved echo_platform
                    (glob_option [("stderr"%string, PyFile "err.log")])
                    [lit "echo"; lit "a"]) k
        :: after /\
    Dict.get "stdout" k
    = Some (or_pipe
              (Dict.get "stdout" [("stderr"%string, PyFile "err.log")])) /\
    Dict.get "stderr" k
    = Some (or_pipe
              (Dict.get "stderr" [("stderr"%string, PyFile "err.log")])).
Proof.
  exact (run_captures_by_default echo_platform [lit "echo"; lit "a"]
           [("stderr"%string, PyFile "err.log")] [] eq_refl).
Defined.




(** *** What [run] returns and raises *)

(** X11.  An exception of [subprocess.run] that is not a
    [CalledProcessError] (a command that is not installed, a timeout, a
    keyword argument it does not accept) reaches the caller of [run] as
    it is, after two warnings and one log line. *)
Theorem run_reraises_other_faults_unchanged
    (P : Platform) (cmd : list str) (kw : dict) (t : trace)
    (a : list str) (k : dict) (v : pyobj) (t1 : trace) (e : exn) :
  run_setup P cmd kw t = (Ok (a, k, v), t1) ->
  os_run P a k = RunFault e ->
  (forall r, e <> CalledProcessError r) ->
  run P cmd kw t
  = (Raise e,
     t1 ++ [EvRun a k;
            EvLog Warning "command got Exception: " (PArgs cmd);
            EvLog Warning "error NOT subprocess.CalledProcessError: "
              (PExn e);
            EvLog Info EmptyString (PExn e)]).
Proof.
  intros Hs Hos Hne. rewrite (run_at_setup P _ _ _ _ _ _ _ Hs), Hos.
  destruct e; try (exfalso; eapply Hne; reflexivity);
    unfold run_except; cbv beta iota zeta delta [bind log emit raise];
    rewrite <- !app_assoc; reflexivity.
Qed.

Lemma run_reraises_other_faults_unchanged_witness :
  run missing_platform [lit "frobnicate"] [] []
  = (Raise (OSError (Some (lit "No such file or directory"))),
     [] ++ [EvRun [lit "frobnicate"]
              [("stdout"%string, PIPE); ("stderr"%string, PIPE)];
            EvLog Warning "command got Exception: "
              (PArgs [lit "frobnicate"]);
            EvLog Warning "error NOT subprocess.CalledProcessError: "
              (PExn (OSError (Some (lit "No such file or directory"))));
            EvLog Info EmptyString
              (PExn (OSError (Some (lit "No such file or directory"))))]).
Proof.
  refine (run_reraises_other_faults_unchanged missing_platform
            [lit "frobnicate"] [] [] [lit "frobnicate"]
            [("stdout"%string, PIPE); ("stderr"%string, PIPE)]
            (PyBool false) []
            (OSError (Some (lit "No such file or directory")))
            eq_refl eq_refl _).
  intros r H. discriminate H.
Defined.

(** X12.  [run] returns a result only for a process that ended with
    status 0: the result has return code 0, its [args] are the argument
    list [get_run_args] computed, and the process run on that list
    exited with status 0. *)
Theorem run_result_is_a_success
    (P : Platform) (cmd : list str) (kw : dict) (t : trace)
    (r : proc_result) (t' : trace) :
  run P cmd kw t = (Ok r, t') ->
  returncode r = 0%Z /\ args r = resolved P (glob_option kw) cmd /\
  exists out err,
    os_run P (args r) (subprocess_kwargs kw) = Exited 0 out err.
Proof.
  intros H. destruct (run_returns P _ _ _ _ _ H) as [out [err [Hos Hf]]].
  destruct (format_output_inv _ _ Hf) as [tout [terr [_ [_ ->]]]].
  simpl. eauto.
Qed.

Lemma run_result_is_a_success_witness :
  returncode
    (mk_result [lit "ls"] 0 (Some (Text (lit "a.txt"))) None
       (Some (lit "a.txt"))) = 0%Z /\
  args
    (mk_result [lit "ls"] 0 (Some (Text (lit "a.txt"))) None
       (Some (lit "a.txt")))
  = resolved listing_platform (glob_option []) [lit "ls"] /\
  exists out err,
    os_run listing_platform
      (args
         (mk_result [lit "ls"] 0 (Some (Text (lit "a.txt"))) None
            (Some (lit "a.txt"))))
      (subprocess_kwargs []) = Exited 0 out err.
Proof.
  exact (run_result_is_a_success listing_platform [lit "ls"] [] []
           (mk_result [lit "ls"] 0 (Some (Text (lit "a.txt"))) None
              (Some (lit "a.txt")))
           [EvRun [lit "ls"]
              [("stdout"%string, PIPE); ("stderr"%string, PIPE)]]
           eq_refl).
Defined.

(** X13.  Whatever [run] gives back, a result or a [CalledProcessError],
    holds no bytes: each of [stdout] and [stderr] is absent or is text
    that neither starts nor ends with white space. *)
Theorem run_output_is_trimmed_text
    (P : Platform) (cmd : list str) (kw : dict) (t : trace)
    (r : proc_result) (t' : trace) :
  run P cmd kw t = (Ok r, t') \/
  run P cmd kw t = (Raise (CalledProcessError r), t') ->
  stream_trimmed (stdout r) = true /\ stream_trimmed (stderr r) = true.
Proof.
  intros H.
  assert (Hf : exists r0, format_output r0 = Ok r).
  { destruct H as [H|H].
    - destruct (run_returns P _ _ _ _ _ H) as [out [err [_ Hf]]]. eauto.
    - exact (run_raises_failure P _ _ _ _ _ H). }
  destruct Hf as [r0 Hf].
  destruct (format_output_inv _ _ Hf) as [tout [terr [_ [_ ->]]]].
  split; apply trimmed_stream_trimmed.
Qed.

Lemma run_output_is_trimmed_text_witness :
  stream_trimmed
    (stdout
       (mk_result [lit "ls"; lit "/nonexistent"] 2 (Some (Text []))
          (Some (Text (lit "no file"))) (Some (lit "no file")))) = true /\
  stream_trimmed
    (stderr
       (mk_result [lit "ls"; lit "/nonexistent"] 2 (Some (Text []))
          (Some (Text (lit "no file"))) (Some (lit "no file")))) = true.
Proof.
  refine (run_output_is_trimmed_text ls_platform
            [lit "ls"; lit "/nonexistent"] [] []
            (mk_result [lit "ls"; lit "/nonexistent"] 2 (Some (Text []))
               (Some (Text (lit "no file"))) (Some (lit "no file")))
            (snd (run ls_platform [lit "ls"; lit "/nonexistent"] [] []))
            (or_intror _)).
  vm_compute. reflexivity.
Defined.

(** *** [run_verbose] and [nice] *)

(** X14.  [run_verbose] called without the option [interactive] runs the
    command, its arguments resolved as by [run], with the three streams
    directed to [sys.stdin], [sys.stdout] and [sys.stderr]: nothing is
    captured through a pipe. *)
Theorem run_verbose_uses_the_terminal_streams
    (P : Platform) (cmd : list str) (kw : dict) (t : trace) :
  Dict.contains "interactive" kw = false ->
  exists k before after,
    snd (run_verbose P cmd kw t)
    = t ++ before ++ EvRun (resolved P (glob_option kw) cmd) k :: after /\
    Dict.get "stdin" k = Some sys_stdin /\
    Dict.get "stdout" k = Some sys_stdout /\
    Dict.get "stderr" k = Some sys_stderr.
Proof.
  intros H. unfold run_verbose. rewrite H. cbn [negb].
  set (kw' := Dict.set "interactive" (PyBool true) kw).
  assert (Hi : interactive_option kw' = true).
  { unfold interactive_option, kw'. now rewrite dict_get_set_same. }
  assert (Hg : glob_option kw' = glob_option kw).
  { unfold glob_option, kw'.
    now rewrite dict_get_set_other by reflexivity. }
  destruct (run_trace_kwargs P cmd kw' t) as [before [after [Ht _]]].
  destruct (get_run_kwargs_interactive kw' Hi) as [Hin [Hout Herr]].
  exists (subprocess_kwargs kw'), before, after.
  rewrite <- Hg. split; [exact Ht|].
  rewrite subprocess_kwargs_get_stdout, subprocess_kwargs_get_stderr.
  rewrite subprocess_kwargs_get_other by reflexivity.
  rewrite Hin, Hout, Herr. repeat split.
Qed.

Lemma run_verbose_uses_the_terminal_streams_witness :
  exists k before after,
    snd (run_verbose echo_platform [lit "echo"; lit "a"]
           [("stdout"%string, PIPE)] [])
    = [] ++ before
        ++ EvRun (resolved echo_platform
                    (glob_option [("stdout"%string, PIPE)])
                    [lit "echo"; lit "a"]) k
        :: after /\
    Dict.get "stdin" k = Some sys_stdin /\
    Dict.get "stdout" k = Some sys_stdout /\
    Dict.get "stderr" k = Some sys_stderr.
Proof.
  exact (run_verbose_uses_the_terminal_streams echo_platform
           [lit "echo"; lit "a"] [("stdout"%string, PIPE)] [] eq_refl).
Defined.

(** X15.  [nice] runs the command behind [nice nice ionice --class 3]:
    these five words open the argument list of [subprocess.run], they
    are never globbed, and the arguments of the caller follow, resolved
    as by [run]. *)
Theorem nice_runs_behind_the_launchers
    (P : Platform) (cmd : list str) (kw : dict) (t : trace) :
  exists k before after,
    snd (nice P cmd kw t)
    = t ++ before
        ++ EvRun (nice_params ++ resolved P (glob_option kw) cmd) k
        :: after.
Proof.
  unfold nice.
  destruct (run_trace P (nice_args cmd) kw t) as [k [before [after H]]].
  exists k, before, after. rewrite H.
  change (nice_args cmd) with (nice_params ++ cmd).
  rewrite resolved_app.
  destruct (resolved_not_globbed P (glob_option kw) nice_params)
    as [Hn _]; [reflexivity|].
  now rewrite Hn.
Qed.

(** *** What [format_output] keeps, and when it raises *)

Section Streams.

Lemma decoded_absent (s : option stream) (t : option str) :
  decoded s = Some t -> (t = None <-> s = None).
Proof.
  unfold decoded. destruct s as [s|].
  - destruct (to_text s); intros H; inversion H; subst;
      split; intros E; discriminate E.
  - intros H. inversion H. subst. split; reflexivity.
Qed.

Lemma trimmed_absent (t : option str) : trimmed t = None <-> t = None.
Proof. destruct t; simpl; split; intros E; (discriminate E || reflexivity). Qed.

Lemma combined_absent (err out : option str) :
  combined err out = None <-> out = None /\ err = None.
Proof.
  destruct err, out; simpl; split;
    (intros [E1 E2] || intros E); try discriminate; auto.
Qed.

Lemma decoded_undecodable (s : option stream) :
  decoded s = None <-> exists b, s = Some (Bytes b) /\ decode b = None.
Proof.
  unfold decoded. destruct s as [[b|x]|]; simpl.
  - destruct (decode b) eqn:E; split.
    + intros H. discriminate H.
    + intros [b' [H1 H2]]. injection H1 as <-. rewrite E in H2.
      discriminate H2.
    + intros _. eauto.
    + reflexivity.
  - split; [intros H; discriminate H | intros [b [H _]]; discriminate H].
  - split; [intros H; discriminate H | intros [b [H _]]; discriminate H].
Qed.

End Streams.

(** X16.  [format_output] changes the text of the streams and nothing
    else: the result it returns has the [args] and the return code it
    was given, and each of [stdout] and [stderr] is absent after it
    exactly when it was absent before. *)
Theorem format_output_keeps_the_process (r r1 : proc_result) :
  format_output r = Ok r1 ->
  args r1 = args r /\ returncode r1 = returncode r /\
  (stdout r1 = None <-> stdout r = None) /\
  (stderr r1 = None <-> stderr r = None).
Proof.
  intros H.
  destruct (format_output_inv _ _ H) as [tout [terr [Ho [He ->]]]].
  pose proof (decoded_absent _ _ Ho) as Io.
  pose proof (decoded_absent _ _ He) as Ie.
  pose proof (trimmed_absent tout) as To.
  pose proof (trimmed_absent terr) as Te.
  simpl. intuition.
Qed.

Lemma format_output_keeps_the_process_witness :
  args (mk_result [lit "ls"] 0 (Some (Text (lit "a.txt"))) None
          (Some (lit "a.txt")))
  = args (mk_result [lit "ls"] 0
            (Some (Bytes [x20; x61; x2e; x74; x78; x74; x0a])) None None) /\
  returncode (mk_result [lit "ls"] 0 (Some (Text (lit "a.txt"))) None
                (Some (lit "a.txt")))
  = returncode (mk_result [lit "ls"] 0
                  (Some (Bytes [x20; x61; x2e; x74; x78; x74; x0a])) None
                  None) /\
  (stdout (mk_result [lit "ls"] 0 (Some (Text (lit "a.txt"))) None
             (Some (lit "a.txt"))) = None
   <-> stdout (mk_result [lit "ls"] 0
                 (Some (Bytes [x20; x61; x2e; x74; x78; x74; x0a])) None
                 None) = None) /\
  (stderr (mk_result [lit "ls"] 0 (Some (Text (lit "a.txt"))) None
             (Some (lit "a.txt"))) = None
   <-> stderr (mk_result [lit "ls"] 0
                 (Some (Bytes [x20; x61; x2e; x74; x78; x74; x0a])) None
                 None) = None).
Proof.
  exact (format_output_keeps_the_process
           (mk_result [lit "ls"] 0
              (Some (Bytes [x20; x61; x2e; x74; x78; x74; x0a])) None None)
           (mk_result [lit "ls"] 0 (Some (Text (lit "a.txt"))) None
              (Some (lit "a.txt")))
           eq_refl).
Defined.

(** X17.  After [format_output], [stderrout] is [None] exactly when the
    process had neither [stdout] nor [stderr]; a stream that is present,
    even empty, gives a [stderrout] that is a string. *)
Theorem stderrout_is_absent_only_without_streams (r r1 : proc_result) :
  format_output r = Ok r1 ->
  (stderrout r1 = None <-> stdout r = None /\ stderr r = None).
Proof.
  intros H.
  destruct (format_output_inv _ _ H) as [tout [terr [Ho [He ->]]]].
  pose proof (decoded_absent _ _ Ho) as Io.
  pose proof (decoded_absent _ _ He) as Ie.
  pose proof (combined_absent terr tout) as Hc.
  simpl. intuition.
Qed.

Lemma stderrout_is_absent_only_without_streams_witness :
  stderrout (mk_result [lit "true"] 0 None None None) = None
  <-> stdout (mk_result [lit "true"] 0 None None (Some (lit "old"))) = None
      /\ stderr (mk_result [lit "true"] 0 None None (Some (lit "old")))
         = None.
Proof.
  exact (stderrout_is_absent_only_without_streams
           (mk_result [lit "true"] 0 None None (Some (lit "old")))
           (mk_result [lit "true"] 0 None None None)
           eq_refl).
Defined.

(** X18.  A result [format_output] returns holds no bytes: each stream
    is absent or is text that neither starts nor ends with white
    space. *)
Theorem format_output_streams_are_trimmed_text (r r1 : proc_result) :
  format_output r = Ok r1 ->
  stream_trimmed (stdout r1) = true /\ stream_trimmed (stderr r1) = true.
Proof.
  intros H.
  destruct (format_output_inv _ _ H) as [tout [terr [_ [_ ->]]]].
  split; apply trimmed_stream_trimmed.
Qed.

Lemma format_output_streams_are_trimmed_text_witness :
  stream_trimmed
    (stdout (mk_result [lit "cat"] 0 (Some (Text (lit "a  b")))
               (Some (Text [])) (Some (lit "a  b")))) = true /\
  stream_trimmed
    (stderr (mk_result [lit "cat"] 0 (Some (Text (lit "a  b")))
               (Some (Text [])) (Some (lit "a  b")))) = true.
Proof.
  exact (format_output_streams_are_trimmed_text
           (mk_result [lit "cat"] 0
              (Some (Text ([9%N] ++ lit " a  b " ++ [13%N; 10%N])))
              (Some (Bytes [x0a])) None)
           (mk_result [lit "cat"] 0 (Some (Text (lit "a  b")))
              (Some (Text [])) (Some (lit "a  b")))
           eq_refl).
Defined.

(** X19.  [format_output] raises exactly when one of the streams is
    bytes that are not UTF-8, and the exception is then
    [UnicodeDecodeError]; text and absent streams never make it
    raise. *)
Theorem format_output_raises_only_on_undecodable_bytes
    (r : proc_result) (e : exn) :
  format_output r = Raise e <->
  e = UnicodeDecodeError /\
  exists b,
    (stdout r = Some (Bytes b) \/ stderr r = Some (Bytes b)) /\
    decode b = None.
Proof.
  split.
  - intros H. apply format_output_raise in H. destruct H as [-> H].
    split; [reflexivity|].
    destruct H as [H|H]; apply decoded_undecodable in H;
      destruct H as [b [H1 H2]]; exists b; auto.
  - intros [-> [b [[H|H] Hb]]]; apply format_output_undecodable_exn;
      [left | right]; apply decoded_undecodable; eauto.
Qed.

Example format_output_latin1 :
  format_output (mk_result [lit "cat"] 0 (Some (Bytes [x63; xe9])) None None)
  = Raise UnicodeDecodeError.
Proof. reflexivity. Qed.

(** *** [handle_run_error] *)

(** X20.  Given the exception [format_output] has already formatted, as
    [run] gives it, [handle_run_error] writes four log lines and leaves
    every attribute of the exception as it was: its call of
    [update_stderrout] changes nothing. *)
Theorem handle_run_error_only_logs
    (cmd : list str) (r r1 : proc_result) (t : trace) :
  format_output r = Ok r1 ->
  handle_run_error cmd r1 t
  = (Ok r1,
     t ++ [EvLog Info "command failed. returncode: " (PArgs cmd);
           EvLog Info "cpe: " (PResult r1);
           EvLog Info "cpe stderr and stdout: " (PStr (stderrout r1));
           EvLog Info EmptyString (PResult r1)]).
Proof.
  intros H. unfold handle_run_error.
  cbv beta iota zeta delta [bind log emit lift].
  rewrite update_stderrout_format_output, (format_output_fixed _ _ H).
  rewrite <- !app_assoc. reflexivity.
Qed.

Lemma handle_run_error_only_logs_witness :
  handle_run_error [lit "false"]
    (mk_result [lit "false"] 1 (Some (Text [])) (Some (Text (lit "no")))
       (Some (lit "no"))) []
  = (Ok (mk_result [lit "false"] 1 (Some (Text []))
           (Some (Text (lit "no"))) (Some (lit "no"))),
     [] ++ [EvLog Info "command failed. returncode: "
              (PArgs [lit "false"]);
            EvLog Info "cpe: "
              (PResult
                 (mk_result [lit "false"] 1 (Some (Text []))
                    (Some (Text (lit "no"))) (Some (lit "no"))));
            EvLog Info "cpe stderr and stdout: "
              (PStr
                 (stderrout
                    (mk_result [lit "false"] 1 (Some (Text []))
                       (Some (Text (lit "no"))) (Some (lit "no")))));
            EvLog Info EmptyString
              (PResult
                 (mk_result [lit "false"] 1 (Some (Text []))
                    (Some (Text (lit "no"))) (Some (lit "no"))))]).
Proof.
  exact (handle_run_error_only_logs [lit "false"]
           (mk_result [lit "false"] 1 (Some (Bytes []))
              (Some (Bytes [x6e; x6f; x0a])) None)
           (mk_result [lit "false"] 1 (Some (Text []))
              (Some (Text (lit "no"))) (Some (lit "no")))
           [] eq_refl).
Defined.

(** *** [background] and [wait_child] *)

(** X21.  When [Popen] starts the process, [background] returns the
    object [Popen] returned.  [Popen] is called once, with the argument
    list as it stands after the single-string test (no globbing) and
    with the keyword arguments exactly as the caller gave them (no pipe
    is added), and the start is logged. *)
Theorem background_returns_the_started_process
    (P : Platform) (c : str) (cs : list str) (kw : dict) (t : trace)
    (cmd' : list str) (t1 : trace) (p : popen) :
  background_args P (c :: cs) t = (Ok cmd', t1) ->
  os_popen P cmd' kw = Ok p ->
  background P (c :: cs) kw t
  = (Ok (Some p),
     t1 ++ [EvPopen cmd' kw;
            EvLog Debug "background process started: " (PProcess p)]).
Proof.
  intros Ha Hp.
  cbv beta iota delta [background _init_log bind ret].
  rewrite Ha.
  cbv beta iota delta [try_except Popen bind emit lift]. rewrite Hp.
  cbv beta iota delta [background_else bind log emit ret].
  rewrite <- !app_assoc. reflexivity.
Qed.

Lemma background_returns_the_started_process_witness :
  background echo_platform (lit "sleep 1" :: []) [] []
  = (Ok (Some (mk_popen 4242 [lit "sleep"; lit "1"])),
     [EvShlexSplit (lit "sleep 1")]
       ++ [EvPopen [lit "sleep"; lit "1"] [];
           EvLog Debug "background process started: "
             (PProcess (mk_popen 4242 [lit "sleep"; lit "1"]))]).
Proof.
  exact (background_returns_the_started_process echo_platform
           (lit "sleep 1") [] [] [] [lit "sleep"; lit "1"]
           [EvShlexSplit (lit "sleep 1")]
           (mk_popen 4242 [lit "sleep"; lit "1"]) eq_refl eq_refl).
Defined.

(** X22.  When [Popen] raises, whatever the exception ([OSError] or
    not), the caller of [background] receives [NameError] for
    [command_str] and not that exception: nothing is logged after the
    call of [Popen], no file is read and [Popen] is not called a second
    time. *)
Theorem background_spawn_fault_becomes_NameError
    (P : Platform) (c : str) (cs : list str) (kw : dict) (t : trace)
    (cmd' : list str) (t1 : trace) (e : exn) :
  background_args P (c :: cs) t = (Ok cmd', t1) ->
  os_popen P cmd' kw = Raise e ->
  background P (c :: cs) kw t
  = (Raise (NameError "command_str"), t1 ++ [EvPopen cmd' kw]).
Proof.
  intros Ha Hp.
  cbv beta iota delta [background _init_log bind ret].
  rewrite Ha.
  cbv beta iota delta [try_except Popen bind emit lift]. rewrite Hp.
  apply background_except_raises_NameError.
Qed.

Lemma background_spawn_fault_becomes_NameError_witness :
  background missing_platform (lit "frobnicate" :: [lit "-v"]) [] []
  = (Raise (NameError "command_str"),
     [] ++ [EvPopen [lit "frobnicate"; lit "-v"] []]).
Proof.
  exact (background_spawn_fault_becomes_NameError missing_platform
           (lit "frobnicate") [lit "-v"] [] []
           [lit "frobnicate"; lit "-v"] []
           (OSError (Some (lit "No such file or directory")))
           eq_refl eq_refl).
Defined.

(** X23.  Whatever [background] returns is a [Popen] object, never
    [None], and [wait_child] accepts it: it raises no [ValueError],
    calls [os.waitpid] once with the pid of that process and options 0,
    and ends as that call ends. *)
Theorem background_handle_is_waitable
    (P : Platform) (cmd : list str) (kw : dict) (t t1 : trace)
    (h : option popen) :
  background P cmd kw t = (Ok h, t1) ->
  exists p,
    h = Some p /\
    wait_child P (handle_obj h) t1
    = (os_waitpid P (pid p) 0, t1 ++ [EvWaitpid (pid p) 0]).
Proof.
  intros H. destruct cmd as [|c cs]; [discriminate H|].
  cbv beta iota delta [background _init_log bind ret] in H.
  destruct (background_args P (c :: cs) t) as [[cmd'|e] t0];
    [|discriminate H].
  cbv beta iota delta [try_except Popen bind emit lift] in H.
  destruct (os_popen P cmd' kw) as [p|e].
  - cbv beta iota delta [background_else bind log emit ret] in H.
    injection H as <- <-. exists p. split; reflexivity.
  - rewrite background_except_raises_NameError in H. discriminate H.
Qed.

Lemma background_handle_is_waitable_witness :
  exists p,
    Some (mk_popen 4242 [lit "sleep"; lit "1"]) = Some p /\
    wait_child echo_platform
      (handle_obj (Some (mk_popen 4242 [lit "sleep"; lit "1"])))
      [EvPopen [lit "sleep"; lit "1"] [];
       EvLog Debug "background process started: "
         (PProcess (mk_popen 4242 [lit "sleep"; lit "1"]))]
    = (os_waitpid echo_platform (pid p) 0,
       [EvPopen [lit "sleep"; lit "1"] [];
        EvLog Debug "background process started: "
          (PProcess (mk_popen 4242 [lit "sleep"; lit "1"]))]
         ++ [EvWaitpid (pid p) 0]).
Proof.
  exact (background_handle_is_waitable echo_platform
           [lit "sleep"; lit "1"] [] []
           [EvPopen [lit "sleep"; lit "1"] [];
            EvLog Debug "background process started: "
              (PProcess (mk_popen 4242 [lit "sleep"; lit "1"]))]
           (Some (mk_popen 4242 [lit "sleep"; lit "1"])) eq_refl).
Defined.
